(** * coderoom: the collaboration core, embedded and checked against its specification

    The development follows the TypeScript sources:

    - [shared/ws.types.ts]: [Operation], [Cursor], [WSMessage];
    - [backend/src/ot/engine.ts]: [OTEngine.transform], [OTEngine.apply],
      [OTEngine.validate];
    - [backend/src/services/documentManager.ts]: [DocumentManager];
    - [backend/src/services/presenceManager.ts]: [PresenceManager];
    - [backend/src/services/connectionManager.ts]: [ConnectionManager].

    Modelling conventions.  A JavaScript [number] that holds a position, a
    length or a version is an integer of [Z] (fractions, NaN and infinities are
    outside the model).  A JavaScript string used as document text is the list
    of its code units ([list ascii]); identifiers and error messages are
    [string]s.  An optional field [f?: T] is an [option T].  A [Map] that is
    only read and written by key is a [gmap]; the client registry, which is
    iterated in insertion order, is an association list.  Every handler runs
    to completion before the next one starts (the suspension points of
    [await] are not interleaved). *)

From Stdlib Require Import ZArith Lia List Ascii String Bool.
From stdpp Require Import gmap strings list fin_maps.

Local Open Scope string_scope.
Local Open Scope list_scope.
Local Open Scope Z_scope.

(** ** JavaScript primitives used by the sources *)

(** Document text is the list of the code units of a JavaScript string;
    [str] reads one off a literal. *)
Definition str (s : string) : list ascii := list_ascii_of_string s.

(** The index clamping of [String.prototype.slice]: a negative index counts
    from the end, and the result is clamped to [0 .. len]. *)
Definition slice_index (len i : Z) : Z :=
  if i <? 0 then Z.max (len + i) 0 else Z.min i len.

(** [s.slice(start, end)]; [end_ = None] is the one-argument call
    [s.slice(start)]. *)
Definition slice (s : list ascii) (start : Z) (end_ : option Z) : list ascii :=
  let len := Z.of_nat (length s) in
  let from := slice_index len start in
  let to := match end_ with
            | None => len
            | Some e => slice_index len e
            end in
  firstn (Z.to_nat (to - from)) (skipn (Z.to_nat from) s).

(** ** shared/ws.types.ts *)

Module Op.

(** [interface Operation].  [type] is the string found in the payload: the
    declared union is ["insert" | "delete"], and the engine compares it with
    [===] against these two literals. *)
Record t := mk {
  opId : string;
  docId : string;
  userId : string;
  baseVersion : Z;
  type : string;
  position : Z;
  text : option (list ascii);
  length : option Z
}.

Definition set_position (o : t) (p : Z) : t :=
  mk (opId o) (docId o) (userId o) (baseVersion o) (type o) p (text o) (length o).

Definition set_length (o : t) (l : option Z) : t :=
  mk (opId o) (docId o) (userId o) (baseVersion o) (type o) (position o) (text o) l.

End Op.

Abbreviation Operation := Op.t.

(** [interface Cursor] *)
Record Cursor := mkCursor {
  cursor_userId : string;
  cursor_position : Z
}.

(** [type WSMessage], one constructor per tag, with the fields the type
    declares for it. *)
Inductive WSMessage :=
| JOIN_DOCUMENT (docId : string)
| APPLY_OP (op : Operation)
| ACK_OP (opId : string) (newVersion : Z)
| BROADCAST_OP (op : Operation)
| CURSOR_UPDATE (position : Z)
| USER_JOINED (userId : string)
| USER_LEFT (userId : string)
| SYNC_STATE (content : list ascii) (version : Z) (cursors : gmap string Cursor)
| ERROR (message : string).

(** [message.userId], the property read off a message object: [undefined]
    ([None]) for the tags whose type declares no such field. *)
Definition message_userId (m : WSMessage) : option string :=
  match m with
  | USER_JOINED u | USER_LEFT u => Some u
  | _ => None
  end.

(** [message.position], read the same way. *)
Definition message_position (m : WSMessage) : option Z :=
  match m with
  | CURSOR_UPDATE p => Some p
  | _ => None
  end.

(** ** backend/src/ot/engine.ts *)

Module OTEngine.

(** [otherOp.text?.length || 0] *)
Definition text_length (o : Operation) : Z :=
  match Op.text o with
  | Some t => Z.of_nat (List.length t)
  | None => 0
  end.

(** [op.length || 0] *)
Definition length_or_0 (o : Operation) : Z :=
  match Op.length o with
  | Some n => n
  | None => 0
  end.

(** [op.text || ''] *)
Definition text_or_empty (o : Operation) : list ascii :=
  match Op.text o with
  | Some t => t
  | None => []
  end.

Definition transform (op otherOp : Operation) : Operation :=
  if String.eqb (Op.type otherOp) "insert" then
    (* Case A: concurrent insert before our operation *)
    if Op.position otherOp <=? Op.position op
    then Op.set_position op (Op.position op + text_length otherOp)
    else op
  else if String.eqb (Op.type otherOp) "delete" then
    (* Case B: concurrent delete before our operation *)
    let deleteStart := Op.position otherOp in
    let deleteEnd := Op.position otherOp + length_or_0 otherOp in
    let transformed :=
      if deleteEnd <=? Op.position op
      then Op.set_position op (Op.position op - length_or_0 otherOp)
      else if (deleteStart <? Op.position op) && (Op.position op <? deleteEnd)
      then Op.set_position op deleteStart
      else op in
    (* Case C: our operation is a delete and there is overlap *)
    if String.eqb (Op.type op) "delete" then
      let ourDeleteEnd := Op.position op + length_or_0 op in
      if (deleteStart <=? Op.position op) && (ourDeleteEnd <=? deleteEnd)
      then Op.set_length transformed (Some 0)
      else if (deleteStart <? ourDeleteEnd) && (Op.position op <? deleteEnd)
      then
        let overlapStart := Z.max deleteStart (Op.position op) in
        let overlapEnd := Z.min deleteEnd ourDeleteEnd in
        let overlapLength := overlapEnd - overlapStart in
        let transformed :=
          Op.set_length transformed (Some (length_or_0 transformed - overlapLength)) in
        if deleteStart <=? Op.position op
        then Op.set_position transformed deleteStart
        else transformed
      else transformed
    else transformed
  else op.

Definition apply (content : list ascii) (op : Operation) : list ascii :=
  if String.eqb (Op.type op) "insert" then
    let before := slice content 0 (Some (Op.position op)) in
    let after := slice content (Op.position op) None in
    before ++ text_or_empty op ++ after
  else if String.eqb (Op.type op) "delete" then
    let before := slice content 0 (Some (Op.position op)) in
    let after := slice content (Op.position op + length_or_0 op) None in
    before ++ after
  else content.

Definition validate (content : list ascii) (op : Operation) : bool :=
  if (Op.position op <? 0) || (Z.of_nat (List.length content) <? Op.position op)
  then false
  else if String.eqb (Op.type op) "insert" then
    match Op.text op with
    | Some t => negb (Nat.eqb (List.length t) 0) && (0 <? Z.of_nat (List.length t))
    | None => false
    end
  else if String.eqb (Op.type op) "delete" then
    let length := length_or_0 op in
    (0 <? length) && (Op.position op + length <=? Z.of_nat (List.length content))
  else false.

End OTEngine.

(** ** Exceptions and results *)

(** What a handler can throw: an [Error] built by the sources themselves
    ([throw new Error(message)]), or the rejection of a call to the durable
    store. *)
Inductive Exn :=
| Error (message : string)
| StoreFailure (message : string).

(** [error.message] *)
Definition exn_message (e : Exn) : string :=
  match e with
  | Error m | StoreFailure m => m
  end.

Inductive Result (A : Type) :=
| Ok (a : A)
| Throw (e : Exn).

Arguments Ok {A} a.
Arguments Throw {A} e.

(** ** backend/src/models/document.ts *)

Module DocumentModel.

(** [interface Document] of shared/ws.types.ts, keyed by its [_id]. *)
Record Document := mkDocument {
  content : list ascii;
  version : Z;
  updatedAt : Z
}.

(** Modelled from the spec: the Mongoose model [DocumentModel] is imported
    from [../models/document], which is not part of the sources.  Following
    section 6.3 (durable document store: [get(docId)] gives the record or
    not-found, [upsertById] writes [{content, version, updatedAt}]) and the
    failure class [StoreUnavailable] of section 4.2, the store is a finite map
    of records together with an [outage]: while it is [Some message], every
    call is rejected with that message. *)
Record t := mk {
  records : gmap string Document;
  outage : option string
}.

(** [DocumentModel.findById(docId)]: the record, or [null]. *)
Definition findById (db : t) (docId : string) : Result (option Document) :=
  match outage db with
  | Some m => Throw (StoreFailure m)
  | None => Ok (records db !! docId)
  end.

(** [DocumentModel.findByIdAndUpdate(docId, update, { upsert: false })]: an
    existing record is overwritten, a missing one is not created. *)
Definition findByIdAndUpdate (db : t) (docId : string) (update : Document) : Result unit * t :=
  match outage db with
  | Some m => (Throw (StoreFailure m), db)
  | None =>
      match records db !! docId with
      | Some _ => (Ok tt, mk (<[docId := update]> (records db)) (outage db))
      | None => (Ok tt, db)
      end
  end.

(** [DocumentModel.create(doc)]: the record is stored under a new [_id].
    Modelled from the spec (section 6.3, [create] gives the new docId): the
    identifier Mongoose generates is the parameter [newId]; an identifier that
    is already taken is refused, as a unique index does. *)
Definition create (db : t) (newId : string) (doc : Document) : Result string * t :=
  match outage db with
  | Some m => (Throw (StoreFailure m), db)
  | None =>
      match records db !! newId with
      | Some _ => (Throw (StoreFailure "E11000 duplicate key error"), db)
      | None => (Ok newId, mk (<[newId := doc]> (records db)) (outage db))
      end
  end.

End DocumentModel.

(** ** backend/src/services/documentManager.ts *)

Module DocumentManager.

Record DocumentState := mkState {
  content : list ascii;
  version : Z;
  pendingOps : list Operation;
  lastSaveTime : Z;
  opsSinceLastSave : Z
}.

(** The manager: its [documents] map, and the store behind [DocumentModel]. *)
Record t := mk {
  documents : gmap string DocumentState;
  model : DocumentModel.t
}.

Definition SAVE_INTERVAL : Z := 2000.
Definition SAVE_OP_THRESHOLD : Z := 20.

(** The return value of [applyOperation]. *)
Record ApplyResult := mkResult {
  newVersion : Z;
  transformedOp : Operation
}.

(** Methods run in the manager's state and may throw; what was written
    before a throw stays written. *)
Definition M (A : Type) : Type := t -> Result A * t.

Definition ret {A} (a : A) : M A := fun dm => (Ok a, dm).

Definition throw {A} (e : Exn) : M A := fun dm => (Throw e, dm).

Definition bind {A B} (c : M A) (k : A -> M B) : M B :=
  fun dm =>
    match c dm with
    | (Ok a, dm') => k a dm'
    | (Throw e, dm') => (Throw e, dm')
    end.

Notation "'let*' x ':=' c 'in' k" := (bind c (fun x => k))
  (at level 10, x name, c at level 100, k at level 200).

(** [this.documents.get(docId)] *)
Definition getState (docId : string) : M (option DocumentState) :=
  fun dm => (Ok (documents dm !! docId), dm).

(** A write through the reference [state]: the object stored under [docId]
    in [this.documents] is the one that changes. *)
Definition setState (docId : string) (state : DocumentState) : M unit :=
  fun dm => (Ok tt, mk (<[docId := state]> (documents dm)) (model dm)).

Definition findById (docId : string) : M (option DocumentModel.Document) :=
  fun dm => (DocumentModel.findById (model dm) docId, dm).

Definition findByIdAndUpdate (docId : string) (update : DocumentModel.Document) : M unit :=
  fun dm =>
    let '(r, db) := DocumentModel.findByIdAndUpdate (model dm) docId update in
    (r, mk (documents dm) db).

(** [now] is the value of [Date.now()] during the call. *)
Definition loadDocument (docId : string) (now : Z) : M DocumentState :=
  let* state := getState docId in
  match state with
  | Some state => ret state
  | None =>
      let* doc := findById docId in
      match doc with
      | None => throw (Error "Document not found")
      | Some doc =>
          let state := mkState (DocumentModel.content doc) (DocumentModel.version doc) [] now 0 in
          let* _ := setState docId state in
          ret state
      end
  end.

(** [array.slice(-n)]: the last [n] elements. *)
Definition slice_last {A} (n : nat) (l : list A) : list A :=
  skipn (List.length l - n) l.

Definition persistDocument (docId : string) (now : Z) : M unit :=
  let* state := getState docId in
  match state with
  | None => ret tt
  | Some state =>
      let* _ := findByIdAndUpdate docId
                  (DocumentModel.mkDocument (content state) (version state) now) in
      setState docId
        (mkState (content state) (version state)
                 (slice_last 10 (pendingOps state)) (* keep last 10 ops *)
                 now 0)
  end.

(** Lines 51 to 61 of [applyOperation]: the operation transformed against
    the retained operations selected by the filter, when its base version is
    behind. *)
Definition transformPending (state : DocumentState) (op : Operation) : Operation :=
  if Op.baseVersion op <? version state then
    let opsToTransform :=
      List.filter (fun pendingOp => Op.baseVersion op <=? Op.baseVersion pendingOp)
                  (pendingOps state) in
    fold_left OTEngine.transform opsToTransform op
  else op.

Definition applyOperation (docId : string) (op : Operation) (now : Z) : M ApplyResult :=
  let* state := loadDocument docId now in
  (* Validate operation *)
  if negb (OTEngine.validate (content state) op) then throw (Error "Invalid operation")
  else
    (* Transform operation if baseVersion is behind *)
    let transformedOp := transformPending state op in
    (* Apply the operation *)
    let state :=
      mkState (OTEngine.apply (content state) transformedOp)
              (version state + 1)
              (pendingOps state ++ [transformedOp])
              (lastSaveTime state)
              (opsSinceLastSave state + 1) in
    let* _ := setState docId state in
    (* Check if we need to persist *)
    let timeSinceLastSave := now - lastSaveTime state in
    let* _ :=
      if (SAVE_INTERVAL <=? timeSinceLastSave) || (SAVE_OP_THRESHOLD <=? opsSinceLastSave state)
      then persistDocument docId now
      else ret tt in
    ret (mkResult (version state) transformedOp).

Definition getDocument (docId : string) (now : Z) : M (list ascii * Z) :=
  let* state := loadDocument docId now in
  ret (content state, version state).

Definition getDocumentState (docId : string) (dm : t) : option DocumentState :=
  documents dm !! docId.

(** The content a new document starts with. *)
Definition defaultContent : list ascii :=
  str "# New Document" ++ [ascii_of_nat 10; ascii_of_nat 10] ++ str "Start typing here...".

(** [newId] is the [_id] the store assigns to the new record. *)
Definition createDocument (newId : string) (now : Z) : M string :=
  fun dm =>
    let '(r, db) :=
      DocumentModel.create (model dm) newId
        (DocumentModel.mkDocument defaultContent 0 now) in
    (r, mk (documents dm) db).

End DocumentManager.

(** ** backend/src/services/presenceManager.ts *)

Module PresenceManager.

(** The Redis hashes the manager writes: key, then field, then the stored
    cursor (its JSON text is not modelled, nor is the expiry of a key). *)
Record t := mk {
  redis : gmap string (gmap string Cursor)
}.

Definition getPresenceKey (docId : string) : string :=
  String.append "presence:doc:" docId.

Definition hset (pm : t) (key field : string) (c : Cursor) : t :=
  mk (<[key := <[field := c]> (default ∅ (redis pm !! key))]> (redis pm)).

Definition hdel (pm : t) (key field : string) : t :=
  mk (<[key := delete field (default ∅ (redis pm !! key))]> (redis pm)).

Definition addUser (pm : t) (docId userId : string) : t :=
  hset pm (getPresenceKey docId) userId (mkCursor userId 0).

Definition removeUser (pm : t) (docId userId : string) : t :=
  hdel pm (getPresenceKey docId) userId.

Definition updateCursor (pm : t) (docId userId : string) (position : Z) : t :=
  hset pm (getPresenceKey docId) userId (mkCursor userId position).

Definition getCursors (pm : t) (docId : string) : gmap string Cursor :=
  default ∅ (redis pm !! getPresenceKey docId).

End PresenceManager.

(** ** backend/src/services/connectionManager.ts *)

Module ConnectionManager.

(** [ws.readyState] *)
Inductive ReadyState := CONNECTING | OPEN | CLOSING | CLOSED.

Definition is_open (r : ReadyState) : bool :=
  match r with
  | OPEN => true
  | _ => false
  end.

(** [interface Client]; of the socket only its ready state matters, the
    frames it is given are collected in the output of each method. *)
Record Client := mkClient {
  ws : ReadyState;
  userId : string;
  docId : option string
}.

Record t := mk {
  clients : list (string * Client);
  documentManager : DocumentManager.t;
  presenceManager : PresenceManager.t
}.

(** A frame written to the socket of a client: [client.ws.send(...)]. *)
Definition Sent : Type := string * WSMessage.

(** [this.clients.get(clientId)] *)
Fixpoint get (clients : list (string * Client)) (clientId : string) : option Client :=
  match clients with
  | [] => None
  | (k, c) :: rest => if String.eqb k clientId then Some c else get rest clientId
  end.

(** [this.clients.set(clientId, client)]: an existing key keeps its place
    in the iteration order, a new one goes last. *)
Fixpoint set (clients : list (string * Client)) (clientId : string) (client : Client)
  : list (string * Client) :=
  match clients with
  | [] => [(clientId, client)]
  | (k, c) :: rest =>
      if String.eqb k clientId then (k, client) :: rest
      else (k, c) :: set rest clientId client
  end.

(** [this.clients.delete(clientId)] *)
Definition delete (clients : list (string * Client)) (clientId : string)
  : list (string * Client) :=
  List.filter (fun kc => negb (String.eqb (fst kc) clientId)) clients.

(** Truthiness of [client.docId : string | null]: [null] and the empty
    string are falsy. *)
Definition joined (c : Client) : option string :=
  match docId c with
  | Some d => if String.eqb d "" then None else Some d
  | None => None
  end.

Definition addClient (cm : t) (clientId : string) (ws : ReadyState) (userId : string) : t :=
  mk (set (clients cm) clientId (mkClient ws userId None))
     (documentManager cm) (presenceManager cm).

Definition sendToClient (cm : t) (clientId : string) (message : WSMessage) : list Sent :=
  match get (clients cm) clientId with
  | Some client => if is_open (ws client) then [(clientId, message)] else []
  | None => []
  end.

(** [client.docId === docId && clientId !== excludeClientId] *)
Definition recipient (docId' : string) (excludeClientId : option string)
    (clientId : string) (client : Client) : bool :=
  match docId client with
  | Some d => String.eqb d docId'
  | None => false
  end
  && match excludeClientId with
     | Some x => negb (String.eqb clientId x)
     | None => true
     end.

Definition broadcastToDocument (cm : t) (docId : string) (message : WSMessage)
    (excludeClientId : option string) : list Sent :=
  flat_map
    (fun kc : string * Client =>
       if recipient docId excludeClientId (fst kc) (snd kc)
       then if is_open (ws (snd kc)) then [(fst kc, message)] else []
       else [])
    (clients cm).


(** A handler gives its result, the manager it leaves behind and the frames
    it sent, in order. *)
Definition Handled : Type := Result unit * t * list Sent.

Definition handleJoinDocument (cm : t) (clientId : string) (docId : string) (now : Z) : Handled :=
  match get (clients cm) clientId with
  | None => (Ok tt, cm, [])
  | Some client =>
      (* Leave previous document if any *)
      let '(pm, leaving) :=
        match joined client with
        | Some d =>
            (PresenceManager.removeUser (presenceManager cm) d (userId client),
             broadcastToDocument cm d (USER_LEFT (userId client)) (Some clientId))
        | None => (presenceManager cm, [])
        end in
      (* Join new document *)
      let clients' := set (clients cm) clientId (mkClient (ws client) (userId client) (Some docId)) in
      let pm := PresenceManager.addUser pm docId (userId client) in
      (* Send current state *)
      match DocumentManager.getDocument docId now (documentManager cm) with
      | (Throw e, dm) => (Throw e, mk clients' dm pm, leaving)
      | (Ok (content, version), dm) =>
          let cursors := PresenceManager.getCursors pm docId in
          let cm' := mk clients' dm pm in
          (Ok tt, cm',
           leaving
           ++ sendToClient cm' clientId (SYNC_STATE content version cursors)
           (* Notify others *)
           ++ broadcastToDocument cm' docId (USER_JOINED (userId client)) (Some clientId))
      end
  end.

Definition handleApplyOp (cm : t) (clientId : string) (op : Operation) (now : Z) : Handled :=
  match get (clients cm) clientId with
  | None => (Ok tt, cm, [])
  | Some client =>
      match joined client with
      | None => (Ok tt, cm, [])
      | Some docId =>
          match DocumentManager.applyOperation docId op now (documentManager cm) with
          | (Throw e, dm) => (Throw e, mk (clients cm) dm (presenceManager cm), [])
          | (Ok result, dm) =>
              let cm' := mk (clients cm) dm (presenceManager cm) in
              (Ok tt, cm',
               (* Acknowledge to sender *)
               sendToClient cm' clientId
                 (ACK_OP (Op.opId op) (DocumentManager.newVersion result))
               (* Broadcast to others *)
               ++ broadcastToDocument cm' docId
                    (BROADCAST_OP (DocumentManager.transformedOp result)) (Some clientId))
          end
      end
  end.

Definition handleCursorUpdate (cm : t) (clientId : string) (position : Z) : Handled :=
  match get (clients cm) clientId with
  | None => (Ok tt, cm, [])
  | Some client =>
      match joined client with
      | None => (Ok tt, cm, [])
      | Some docId =>
          let pm := PresenceManager.updateCursor (presenceManager cm) docId (userId client) position in
          let cm' := mk (clients cm) (documentManager cm) pm in
          (* Broadcast cursor update to others *)
          let message := CURSOR_UPDATE position in
          (Ok tt, cm', broadcastToDocument cm' docId message (Some clientId))
      end
  end.

Definition handleMessage (cm : t) (clientId : string) (message : WSMessage) (now : Z)
  : t * list Sent :=
  match get (clients cm) clientId with
  | None => (cm, [])
  | Some _ =>
      let '(r, cm', sent) :=
        match message with
        | JOIN_DOCUMENT docId => handleJoinDocument cm clientId docId now
        | APPLY_OP op => handleApplyOp cm clientId op now
        | CURSOR_UPDATE position => handleCursorUpdate cm clientId position
        | _ => (Ok tt, cm, [])
        end in
      match r with
      | Ok _ => (cm', sent)
      | Throw error => (cm', sent ++ sendToClient cm' clientId (ERROR (exn_message error)))
      end
  end.

Definition getClientCount (cm : t) (docId' : string) : nat :=
  List.length
    (List.filter
       (fun kc : string * Client =>
          match docId (snd kc) with
          | Some d => String.eqb d docId'
          | None => false
          end)
       (clients cm)).

End ConnectionManager.

(** ** Concurrent operations *)

Module Concurrent.

(** The range [position, position + length) a delete removes. *)
Definition range_end (o : Operation) : Z := Op.position o + OTEngine.length_or_0 o.

(** Two concurrent operations alias when they address the same place of the
    common base: two inserts at one position, or an insert strictly inside
    the range that the delete removes. *)
Definition alias (a b : Operation) : bool :=
  if String.eqb (Op.type a) "insert" then
    if String.eqb (Op.type b) "insert" then Op.position a =? Op.position b
    else (Op.position b <? Op.position a) && (Op.position a <? range_end b)
  else
    if String.eqb (Op.type b) "insert"
    then (Op.position a <? Op.position b) && (Op.position b <? range_end a)
    else false.

(** Two deletes overlap when their ranges share a character. *)
Definition overlapping (a b : Operation) : bool :=
  (Op.position a <? range_end b) && (Op.position b <? range_end a).

End Concurrent.

(** ** engine.test.ts: the operations of the unit tests *)

Module EngineTest.

Definition insert (id user : string) (p : Z) (t : string) : Operation :=
  Op.mk id "doc1" user 0 "insert" p (Some (str t)) None.

Definition delete (id user : string) (p l : Z) : Operation :=
  Op.mk id "doc1" user 0 "delete" p None (Some l).

End EngineTest.

(** ** Sessions used in the examples *)

Module Scenario.

Import ConnectionManager.

(** Two open sessions, [c1] of alice and [c2] of bob, both joined to the
    document [d1]; the registry holds the state [st] for it. *)
Definition sessions : list (string * Client) :=
  [("c1", mkClient OPEN "alice" (Some "d1"));
   ("c2", mkClient OPEN "bob" (Some "d1"))].

Definition store (outage : option string) : DocumentModel.t :=
  DocumentModel.mk {["d1" := DocumentModel.mkDocument (str "abcdefgh") 0 0]} outage.

Definition authority (st : DocumentManager.DocumentState) (outage : option string)
  : DocumentManager.t :=
  DocumentManager.mk {["d1" := st]} (store outage).

Definition editing (st : DocumentManager.DocumentState) (outage : option string)
  : ConnectionManager.t :=
  mk sessions (authority st outage) (PresenceManager.mk ∅).

(** Both sessions right after [addClient], before any join, over a store
    that holds [d1]. *)
Definition connected : ConnectionManager.t :=
  addClient
    (addClient (mk [] (DocumentManager.mk ∅ (store None)) (PresenceManager.mk ∅))
               "c1" OPEN "alice")
    "c2" OPEN "bob".

(** The tail of the scenario (D) of the specification: ten retained
    operations, conceived against the versions 90 to 99. *)
Definition tail : list Operation :=
  map (fun v => Op.mk "t" "d1" "carol" v "insert" 0 (Some (str "z")) None)
      [90; 91; 92; 93; 94; 95; 96; 97; 98; 99].

(** The state of [d1] in the registry after a handler has run. *)
Definition state_after (r : ConnectionManager.t * list Sent)
  : option DocumentManager.DocumentState :=
  DocumentManager.documents (documentManager (fst r)) !! "d1".

Definition insert (id user : string) (base p : Z) (t : string) : Operation :=
  Op.mk id "d1" user base "insert" p (Some (str t)) None.

Definition delete (id user : string) (base p l : Z) : Operation :=
  Op.mk id "d1" user base "delete" p None (Some l).

End Scenario.


(** ** frontend/src/store/editorStore.ts *)

Module EditorStore.

Inductive ConnectionStatus := connected | reconnecting | disconnected.

Record EditorState := mk {
  docId : option string;
  content : list ascii;
  localVersion : Z;
  serverVersion : Z;
  pendingOps : list Operation;
  cursors : gmap string Cursor;
  collaborators : list string;
  connectionStatus : ConnectionStatus
}.

Definition initialState : EditorState := mk None [] 0 0 [] ∅ [] disconnected.

Definition setDocId (d : string) (st : EditorState) : EditorState :=
  mk (Some d) (content st) (localVersion st) (serverVersion st) (pendingOps st)
     (cursors st) (collaborators st) (connectionStatus st).

Definition setContent (c : list ascii) (st : EditorState) : EditorState :=
  mk (docId st) c (localVersion st + 1) (serverVersion st) (pendingOps st)
     (cursors st) (collaborators st) (connectionStatus st).

Definition setServerVersion (v : Z) (st : EditorState) : EditorState :=
  mk (docId st) (content st) (localVersion st) v (pendingOps st)
     (cursors st) (collaborators st) (connectionStatus st).

Definition setPendingOps (ops : list Operation) (st : EditorState) : EditorState :=
  mk (docId st) (content st) (localVersion st) (serverVersion st) ops
     (cursors st) (collaborators st) (connectionStatus st).

Definition addPendingOp (op : Operation) (st : EditorState) : EditorState :=
  setPendingOps (pendingOps st ++ [op]) st.

Definition removePendingOp (opId : string) (st : EditorState) : EditorState :=
  setPendingOps
    (List.filter (fun op => negb (String.eqb (Op.opId op) opId)) (pendingOps st)) st.

Definition clearPendingOps (st : EditorState) : EditorState := setPendingOps [] st.

Definition updateCursors (cs : gmap string Cursor) (st : EditorState) : EditorState :=
  mk (docId st) (content st) (localVersion st) (serverVersion st) (pendingOps st)
     cs (collaborators st) (connectionStatus st).

Definition updateCursor (userId : string) (position : Z) (st : EditorState) : EditorState :=
  updateCursors (<[userId := mkCursor userId position]> (cursors st)) st.

Definition setCollaborators (users : list string) (st : EditorState) : EditorState :=
  mk (docId st) (content st) (localVersion st) (serverVersion st) (pendingOps st)
     (cursors st) users (connectionStatus st).

Definition addCollaborator (userId : string) (st : EditorState) : EditorState :=
  setCollaborators (collaborators st ++ [userId]) st.

Definition removeCollaborator (userId : string) (st : EditorState) : EditorState :=
  setCollaborators
    (List.filter (fun id => negb (String.eqb id userId)) (collaborators st)) st.

Definition setConnectionStatus (status : ConnectionStatus) (st : EditorState) : EditorState :=
  mk (docId st) (content st) (localVersion st) (serverVersion st) (pendingOps st)
     (cursors st) (collaborators st) status.

Definition syncState (c : list ascii) (version : Z) (cs : gmap string Cursor)
    (st : EditorState) : EditorState :=
  mk (docId st) c version version [] cs (collaborators st) (connectionStatus st).

Definition reset (st : EditorState) : EditorState := initialState.

End EditorStore.

(** ** frontend/src/hooks/useWebSocket.ts *)

Module UseWebSocket.

(** Truthiness of [op.text : string | undefined] and of
    [op.length : number | undefined]: the empty string and 0 are falsy. *)
Definition truthy_text (op : Operation) : bool :=
  match Op.text op with
  | Some (_ :: _) => true
  | _ => false
  end.

Definition truthy_length (op : Operation) : bool :=
  match Op.length op with
  | Some l => negb (l =? 0)
  | None => false
  end.

(** The content after [op], as [applyRemoteOp] computes it before it calls
    [setContent]. *)
Definition remoteContent (content : list ascii) (op : Operation) : list ascii :=
  if String.eqb (Op.type op) "insert" && truthy_text op then
    let before := slice content 0 (Some (Op.position op)) in
    let after := slice content (Op.position op) None in
    before ++ OTEngine.text_or_empty op ++ after
  else if String.eqb (Op.type op) "delete" && truthy_length op then
    let before := slice content 0 (Some (Op.position op)) in
    let after := slice content (Op.position op + OTEngine.length_or_0 op) None in
    before ++ after
  else content.

Definition applyRemoteOp (op : Operation) (st : EditorStore.EditorState)
  : EditorStore.EditorState :=
  EditorStore.setContent (remoteContent (EditorStore.content st) op) st.

(** [handleMessage] of the hook: what the editor does with a frame from the
    server. *)
Definition handleMessage (message : WSMessage) (st : EditorStore.EditorState)
  : EditorStore.EditorState :=
  match message with
  | SYNC_STATE content version cursors => EditorStore.syncState content version cursors st
  | ACK_OP opId newVersion =>
      EditorStore.removePendingOp opId (EditorStore.setServerVersion newVersion st)
  | BROADCAST_OP op => applyRemoteOp op st
  | CURSOR_UPDATE _ => st
  | USER_JOINED userId => EditorStore.addCollaborator userId st
  | USER_LEFT userId => EditorStore.removeCollaborator userId st
  | ERROR _ => st
  | _ => st
  end.

End UseWebSocket.

(** ** frontend/src/pages/editor/[docId].tsx *)

Module EditorPage.

(** [handleOperation]: the optimistic local update, the operation queued as
    pending, and the frame handed to [sendMessage]. *)
Definition handleOperation (op : Operation) (st : EditorStore.EditorState)
  : EditorStore.EditorState * WSMessage :=
  let content := EditorStore.content st in
  let content :=
    if String.eqb (Op.type op) "insert" && UseWebSocket.truthy_text op then
      let before := slice content 0 (Some (Op.position op)) in
      let after := slice content (Op.position op) None in
      before ++ OTEngine.text_or_empty op ++ after
    else if String.eqb (Op.type op) "delete" && UseWebSocket.truthy_length op then
      let before := slice content 0 (Some (Op.position op)) in
      let after := slice content (Op.position op + OTEngine.length_or_0 op) None in
      before ++ after
    else content in
  (EditorStore.addPendingOp op (EditorStore.setContent content st), APPLY_OP op).

(** [handleCursorMove] *)
Definition handleCursorMove (position : Z) : WSMessage := CURSOR_UPDATE position.

End EditorPage.

(** ** frontend/src/components/CodeEditor.tsx *)

Module CodeEditor.

(** [handleChange]: the edit is read off the lengths of the old and the new
    content and the cursor ([e.target.value], [selectionStart]).  [opId] is
    the value of [uuidv4()], [docId] and [serverVersion] come from the store;
    the result is the operation given to [onOperation], if any. *)
Definition handleChange (oldContent newContent : list ascii) (cursorPos : Z)
    (opId docId userId : string) (serverVersion : Z) : option Operation :=
  let newLength := Z.of_nat (length newContent) in
  let oldLength := Z.of_nat (length oldContent) in
  if oldLength <? newLength then
    (* Insert operation *)
    let insertedText :=
      slice newContent (cursorPos - (newLength - oldLength)) (Some cursorPos) in
    Some (Op.mk opId docId userId serverVersion "insert"
            (cursorPos - Z.of_nat (length insertedText)) (Some insertedText) None)
  else if newLength <? oldLength then
    (* Delete operation *)
    let deletedLength := oldLength - newLength in
    Some (Op.mk opId docId userId serverVersion "delete" cursorPos None (Some deletedLength))
  else None.

End CodeEditor.

(** * Properties *)

(** ** [slice] *)

Lemma slice_index_range len i : 0 <= len -> 0 <= slice_index len i <= len.
Proof. unfold slice_index. destruct (Z.ltb_spec i 0); lia. Qed.

Lemma slice_index_nonneg len i : 0 <= i -> slice_index len i = Z.min i len.
Proof. unfold slice_index. destruct (Z.ltb_spec i 0); lia. Qed.

(** [s.slice(0, p)] is a prefix of [s]. *)
Lemma slice_to s p :
  slice s 0 (Some p) = firstn (Z.to_nat (slice_index (Z.of_nat (length s)) p)) s.
Proof.
  unfold slice. rewrite (slice_index_nonneg _ 0) by lia.
  replace (Z.to_nat (Z.min 0 (Z.of_nat (length s)))) with 0%nat by lia.
  simpl. f_equal. lia.
Qed.

(** [s.slice(p)] is the matching suffix. *)
Lemma slice_from s p :
  slice s p None = skipn (Z.to_nat (slice_index (Z.of_nat (length s)) p)) s.
Proof.
  unfold slice.
  pose proof (slice_index_range (Z.of_nat (length s)) p ltac:(lia)) as Hr.
  apply firstn_all2. rewrite length_skipn. lia.
Qed.

Lemma slice_to_nonneg s p : 0 <= p -> slice s 0 (Some p) = firstn (Z.to_nat p) s.
Proof.
  intros Hp. rewrite slice_to, slice_index_nonneg by lia.
  destruct (Z.le_gt_cases p (Z.of_nat (length s))).
  - f_equal. lia.
  - rewrite !firstn_all2 by lia. reflexivity.
Qed.

Lemma slice_from_nonneg s p : 0 <= p -> slice s p None = skipn (Z.to_nat p) s.
Proof.
  intros Hp. rewrite slice_from, slice_index_nonneg by lia.
  destruct (Z.le_gt_cases p (Z.of_nat (length s))).
  - f_equal. lia.
  - rewrite !skipn_all2 by lia. reflexivity.
Qed.

(** Cutting a string at any index, negative or beyond the end, loses
    nothing. *)
Lemma slice_cut s p : slice s 0 (Some p) ++ slice s p None = s.
Proof. rewrite slice_to, slice_from. apply firstn_skipn. Qed.

(** Equations between strings built from prefixes, suffixes and
    concatenations are settled position by position: the element at index
    [i] of each side is looked up through the concatenations, deciding each
    comparison from the hypotheses and splitting only where they leave it
    open. *)
Ltac name_to_nat :=
  repeat lazymatch goal with
         | |- context [Z.to_nat ?e] =>
             let n := fresh "n" in remember (Z.to_nat e) as n
         end.

Ltac decide_min :=
  lazymatch goal with
  | |- context [Nat.min ?a ?b] =>
      first [ rewrite (Nat.min_l a b) by lia | rewrite (Nat.min_r a b) by lia ]
  end.

(** A truncated subtraction [x - y] is named [j] with [x = j + y] when
    [y <= x] is known, and is [0] when [x <= y] is. *)
Ltac name_sub :=
  lazymatch goal with
  | |- context [Nat.sub ?x ?y] =>
      first [ let j := fresh "j" in
              let E := fresh "E" in
              assert (y <= x)%nat as E by lia;
              remember (Nat.sub x y) as j eqn:Ej;
              assert (x = j + y)%nat by lia; clear Ej E
            | replace (Nat.sub x y) with 0%nat by lia ]
  end.

Ltac lookup_step :=
  first
    [ rewrite length_app
    | rewrite length_firstn
    | rewrite length_skipn
    | decide_min
    | name_sub
    | lazymatch goal with
      | |- (if Nat.ltb ?a ?b then _ else _) = _ =>
          first [ rewrite (proj2 (Nat.ltb_lt a b)) by lia
                | rewrite (proj2 (Nat.ltb_ge a b)) by lia
                | destruct (Nat.ltb_spec a b) ];
          cbv beta iota
      end
    | lazymatch goal with
      | |- nth_error (?l ++ ?l') ?n = _ => rewrite (nth_error_app l l' n)
      | |- nth_error (firstn ?n ?l) ?i = _ => rewrite (nth_error_firstn n l i)
      | |- nth_error (skipn ?n ?l) ?i = _ => rewrite (nth_error_skipn n l i)
      end ].

Ltac lookup_side := repeat lookup_step.

Ltac lookup_done :=
  lazymatch goal with
  | |- None = None => reflexivity
  | |- nth_error ?l _ = nth_error ?l _ => f_equal; lia
  | |- nth_error _ _ = None => apply nth_error_None; lia
  | |- None = nth_error _ _ => symmetry; apply nth_error_None; lia
  | |- _ => exfalso; lia
  end.

Ltac list_ext :=
  name_to_nat; apply nth_error_ext; intro;
  lookup_side; symmetry; lookup_side; lookup_done.

(** ** The engine on well-formed operations *)

Section Engine.

Import OTEngine.

Lemma apply_insert s o :
  Op.type o = "insert" -> 0 <= Op.position o ->
  apply s o = firstn (Z.to_nat (Op.position o)) s
              ++ text_or_empty o ++ skipn (Z.to_nat (Op.position o)) s.
Proof.
  intros Ht Hp. unfold apply. rewrite Ht. simpl.
  rewrite slice_to_nonneg, slice_from_nonneg by lia. reflexivity.
Qed.

Lemma apply_delete s o :
  Op.type o = "delete" -> 0 <= Op.position o -> 0 <= length_or_0 o ->
  apply s o = firstn (Z.to_nat (Op.position o)) s
              ++ skipn (Z.to_nat (Op.position o + length_or_0 o)) s.
Proof.
  intros Ht Hp Hl. unfold apply. rewrite Ht. simpl.
  rewrite slice_to_nonneg, slice_from_nonneg by lia. reflexivity.
Qed.

(** What [validate] accepts. *)
Lemma validate_insert s o :
  Op.type o = "insert" -> validate s o = true ->
  0 <= Op.position o <= Z.of_nat (length s) /\
  exists t, Op.text o = Some t /\ (0 < length t)%nat.
Proof.
  unfold validate. intros Ht. rewrite Ht. simpl.
  destruct (Z.ltb_spec (Op.position o) 0); simpl; [discriminate|].
  destruct (Z.ltb_spec (Z.of_nat (length s)) (Op.position o)); simpl; [discriminate|].
  destruct (Op.text o) as [t|]; [|discriminate].
  intros Hv. apply andb_prop in Hv as [_ Hv]. apply Z.ltb_lt in Hv.
  split; [lia|]. exists t. split; [reflexivity|lia].
Qed.

Lemma validate_delete s o :
  Op.type o = "delete" -> validate s o = true ->
  0 <= Op.position o /\ 0 < length_or_0 o /\
  Op.position o + length_or_0 o <= Z.of_nat (length s).
Proof.
  unfold validate. intros Ht. rewrite Ht. simpl.
  destruct (Z.ltb_spec (Op.position o) 0); simpl; [discriminate|].
  destruct (Z.ltb_spec (Z.of_nat (length s)) (Op.position o)); simpl; [discriminate|].
  intros Hv. apply andb_prop in Hv as [H1 H2].
  apply Z.ltb_lt in H1. apply Z.leb_le in H2. lia.
Qed.

(** [transform] writes [position] and [length] only. *)
Lemma transform_keeps (op other : Operation) :
  Op.opId (transform op other) = Op.opId op /\
  Op.docId (transform op other) = Op.docId op /\
  Op.userId (transform op other) = Op.userId op /\
  Op.baseVersion (transform op other) = Op.baseVersion op /\
  Op.type (transform op other) = Op.type op /\
  Op.text (transform op other) = Op.text op.
Proof.
  unfold transform.
  repeat match goal with
         | |- context [if ?c then _ else _] => destruct c
         end; simpl; repeat split; reflexivity.
Qed.

End Engine.

(** ** engine.test.ts: the unit tests of the engine, replayed on the model *)

Section EngineTests.

Example test_concurrent_inserts_same_position :
  Op.position (OTEngine.transform (EngineTest.insert "1" "user1" 5 "hello") (EngineTest.insert "2" "user2" 5 "world")) = 10.
Proof. reflexivity. Qed.

Example test_insert_before_another_insert :
  Op.position (OTEngine.transform (EngineTest.insert "1" "user1" 10 "test") (EngineTest.insert "2" "user2" 5 "hello")) = 15.
Proof. reflexivity. Qed.

Example test_delete_before_insert :
  Op.position (OTEngine.transform (EngineTest.insert "1" "user1" 10 "test") (EngineTest.delete "2" "user2" 3 5)) = 5.
Proof. reflexivity. Qed.

Example test_overlapping_deletes :
  Op.length (OTEngine.transform (EngineTest.delete "1" "user1" 5 10) (EngineTest.delete "2" "user2" 8 5)) = Some 5.
Proof. reflexivity. Qed.

Example test_apply_insert :
  OTEngine.apply (str "Hello World") (EngineTest.insert "1" "user1" 5 " Beautiful") = str "Hello Beautiful World".
Proof. reflexivity. Qed.

Example test_apply_delete :
  OTEngine.apply (str "Hello Beautiful World") (EngineTest.delete "1" "user1" 5 10) = str "Hello World".
Proof. reflexivity. Qed.

Example test_apply_insert_at_beginning :
  OTEngine.apply (str "World") (EngineTest.insert "1" "user1" 0 "Hello ") = str "Hello World".
Proof. reflexivity. Qed.

Example test_apply_insert_at_end :
  OTEngine.apply (str "Hello") (EngineTest.insert "1" "user1" 5 " World") = str "Hello World".
Proof. reflexivity. Qed.

Example test_validate_insert :
  OTEngine.validate (str "Hello World") (EngineTest.insert "1" "user1" 5 " Beautiful") = true.
Proof. reflexivity. Qed.

Example test_validate_negative_position :
  OTEngine.validate (str "Hello World") (EngineTest.insert "1" "user1" (-1) "test") = false.
Proof. reflexivity. Qed.

Example test_validate_position_beyond_content :
  OTEngine.validate (str "Hello World") (EngineTest.insert "1" "user1" 100 "test") = false.
Proof. reflexivity. Qed.

Example test_validate_delete :
  OTEngine.validate (str "Hello World") (EngineTest.delete "1" "user1" 5 6) = true.
Proof. reflexivity. Qed.

Example test_validate_delete_beyond_content :
  OTEngine.validate (str "Hello World") (EngineTest.delete "1" "user1" 5 100) = false.
Proof. reflexivity. Qed.

Example test_two_concurrent_inserts :
  let op1 := EngineTest.insert "1" "user1" 2 "A" in
  let op2 := EngineTest.insert "2" "user2" 2 "B" in
  let content := OTEngine.apply (str "test") op1 in
  content = str "teAst" /\
  OTEngine.apply content (OTEngine.transform op2 op1) = str "teABst".
Proof. split; reflexivity. Qed.

End EngineTests.

(** ** Convergence of the two transform orders *)

Section Convergence.
Import OTEngine.

Ltac op_facts :=
  repeat match goal with
         | Hv : validate ?s ?o = true, Ht : Op.type ?o = "insert" |- _ =>
             let t := fresh "t" in let Ht' := fresh "Htext" in
             destruct (validate_insert s o Ht Hv) as (? & t & Ht' & ?); clear Hv
         | Hv : validate ?s ?o = true, Ht : Op.type ?o = "delete" |- _ =>
             destruct (validate_delete s o Ht Hv) as (? & ? & ?); clear Hv
         end.

Ltac split_comparisons :=
  repeat match goal with
         | |- context [Z.leb ?x ?y] => destruct (Z.leb_spec x y); simpl
         | |- context [Z.ltb ?x ?y] => destruct (Z.ltb_spec x y); simpl
         end.

Ltac unfold_apply :=
  repeat match goal with
         | |- context [apply ?s ?o] =>
             first [ rewrite (apply_insert s o)
                       by (unfold length_or_0; simpl; first [reflexivity | lia])
                   | rewrite (apply_delete s o)
                       by (unfold length_or_0; simpl; first [reflexivity | lia]) ]
         end.

Ltac converge :=
  try (exfalso; lia);
  unfold_apply;
  unfold text_or_empty, length_or_0, Op.set_position, Op.set_length; simpl;
  list_ext.

Lemma tp1_insert_insert s a b :
  Op.type a = "insert" -> Op.type b = "insert" ->
  validate s a = true -> validate s b = true ->
  Op.position a <> Op.position b ->
  apply (apply s a) (transform b a) = apply (apply s b) (transform a b).
Proof.
  intros Ha Hb Va Vb Hne. op_facts.
  destruct a as [ia da ua va ta pa xa la], b as [ib db ub vb tb pb xb lb].
  simpl in *. subst.
  unfold transform, text_length. simpl.
  split_comparisons; converge.
Qed.

Lemma tp1_insert_delete s a b :
  Op.type a = "insert" -> Op.type b = "delete" ->
  validate s a = true -> validate s b = true ->
  ~ (Op.position b < Op.position a < Op.position b + length_or_0 b) ->
  apply (apply s a) (transform b a) = apply (apply s b) (transform a b).
Proof.
  intros Ha Hb Va Vb Hne. op_facts.
  destruct a as [ia da ua va ta pa xa la], b as [ib db ub vb tb pb xb [lb|]];
    unfold length_or_0 in *; simpl in *; try lia. subst.
  unfold transform, text_length, length_or_0. simpl.
  split_comparisons; converge.
Qed.

Lemma tp1_delete_delete s a b :
  Op.type a = "delete" -> Op.type b = "delete" ->
  validate s a = true -> validate s b = true ->
  apply (apply s a) (transform b a) = apply (apply s b) (transform a b).
Proof.
  intros Ha Hb Va Vb. op_facts.
  destruct a as [ia da ua va ta pa xa [la|]], b as [ib db ub vb tb pb xb [lb|]];
    unfold length_or_0 in *; simpl in *; try lia. subst.
  unfold transform, text_length, length_or_0. simpl.
  split_comparisons; converge.
Qed.
End Convergence.

(** ** The claims about the engine *)

Section EngineClaims.
Import OTEngine Concurrent.

Lemma validate_type s o :
  validate s o = true -> Op.type o = "insert" \/ Op.type o = "delete".
Proof.
  unfold validate.
  destruct ((Op.position o <? 0) || (Z.of_nat (length s) <? Op.position o)); [discriminate|].
  destruct (String.eqb_spec (Op.type o) "insert"); [auto|].
  destruct (String.eqb_spec (Op.type o) "delete"); [auto|discriminate].
Qed.

(** C5. For every content [s] and concurrent operations [a], [b] valid on
    [s], at least one of them an insert (insert/insert, or insert versus
    delete), that do not alias, both transform orders give the same string:
    [apply(apply(s, a), transform(b, a)) = apply(apply(s, b), transform(a, b))]. *)
Theorem tp1_non_aliasing (s : list ascii) (a b : Operation) :
  validate s a = true -> validate s b = true ->
  Op.type a = "insert" \/ Op.type b = "insert" ->
  alias a b = false ->
  apply (apply s a) (transform b a) = apply (apply s b) (transform a b).
Proof.
  intros Va Vb Hins Hal.
  destruct (validate_type s a Va) as [Ta|Ta], (validate_type s b Vb) as [Tb|Tb];
    unfold alias, range_end in Hal; rewrite Ta, Tb in Hal; simpl in Hal.
  - apply tp1_insert_insert; auto. apply Z.eqb_neq, Hal.
  - apply tp1_insert_delete; auto.
    apply andb_false_iff in Hal as [H|H]; apply Z.ltb_ge in H; lia.
  - symmetry. apply tp1_insert_delete; auto.
    apply andb_false_iff in Hal as [H|H]; apply Z.ltb_ge in H; lia.
  - destruct Hins as [H|H]; rewrite H in *; discriminate.
Qed.

Lemma tp1_non_aliasing_witness :
  let s := str "hello world" in
  let a := Op.mk "1" "doc1" "user1" 5 "insert" 6 (Some (str "big ")) None in
  let b := Op.mk "2" "doc1" "user2" 5 "delete" 0 None (Some 6) in
  validate s a = true /\ validate s b = true /\ alias a b = false /\
  apply (apply s a) (transform b a) = str "big world" /\
  apply (apply s a) (transform b a) = apply (apply s b) (transform a b).
Proof.
  do 4 (split; [reflexivity|]).
  apply tp1_non_aliasing; [reflexivity | reflexivity | left; reflexivity | reflexivity].
Defined.

(** The hypothesis of C5 cannot be dropped: with the tie-break
    [otherOp.position <= op.position] two inserts at one position end up in
    either order, and an insert strictly inside a deleted range is deleted on
    one side and kept on the other. *)
Example tp1_fails_on_same_position :
  let s := str "test" in
  let a := Op.mk "1" "doc1" "user1" 0 "insert" 2 (Some (str "A")) None in
  let b := Op.mk "2" "doc1" "user2" 0 "insert" 2 (Some (str "B")) None in
  apply (apply s a) (transform b a) = str "teABst" /\
  apply (apply s b) (transform a b) = str "teBAst".
Proof. split; reflexivity. Qed.

Example tp1_fails_inside_deleted_range :
  let s := str "abcdef" in
  let a := Op.mk "1" "doc1" "user1" 0 "insert" 3 (Some (str "XY")) None in
  let b := Op.mk "2" "doc1" "user2" 0 "delete" 1 None (Some 4) in
  apply (apply s a) (transform b a) = str "adef" /\
  apply (apply s b) (transform a b) = str "aXYf".
Proof. split; reflexivity. Qed.

(** C6. For every content [s] and overlapping deletes [a], [b], both valid
    on [s], the two transform orders give the same final string, also when
    one side has become a delete of length 0. *)
Theorem delete_delete_convergence (s : list ascii) (a b : Operation) :
  Op.type a = "delete" -> Op.type b = "delete" ->
  validate s a = true -> validate s b = true ->
  overlapping a b = true ->
  apply (apply s a) (transform b a) = apply (apply s b) (transform a b).
Proof.
  intros Ta Tb Va Vb _. apply tp1_delete_delete; assumption.
Qed.

Lemma delete_delete_convergence_witness :
  let s := str "abcdefgh" in
  let a := Op.mk "1" "doc1" "user1" 0 "delete" 2 None (Some 4) in
  let b := Op.mk "2" "doc1" "user2" 0 "delete" 3 None (Some 3) in
  overlapping a b = true /\
  Op.length (transform b a) = Some 0 /\
  apply (apply s a) (transform b a) = str "abgh" /\
  apply (apply s a) (transform b a) = apply (apply s b) (transform a b).
Proof.
  do 3 (split; [reflexivity|]).
  apply delete_delete_convergence; reflexivity.
Defined.

(** C9. [transform(op, other)] changes at most the position and the length
    of [op]: identifiers, base version, type and text are those of [op]. *)
Theorem transform_frame (op other : Operation) :
  Op.opId (transform op other) = Op.opId op /\
  Op.docId (transform op other) = Op.docId op /\
  Op.userId (transform op other) = Op.userId op /\
  Op.baseVersion (transform op other) = Op.baseVersion op /\
  Op.type (transform op other) = Op.type op /\
  Op.text (transform op other) = Op.text op.
Proof. apply transform_keeps. Qed.

End EngineClaims.

Section ApplyTotal.
Import OTEngine.

(** A delete of length 0 (or of no length at all) leaves every string as it
    is, wherever it points. *)
Lemma apply_delete_nothing s o :
  Op.type o = "delete" -> length_or_0 o = 0 -> apply s o = s.
Proof.
  intros Ht Hl. unfold apply. rewrite Ht, Hl, Z.add_0_r. simpl. apply slice_cut.
Qed.

(** C10, as the code has it.  [apply] is a total function of the content and
    the operation.  When [op.position] exceeds the length of the content, an
    insert appends its text, and a delete returns the content unchanged
    provided [position + length] is not below the length of the content (as
    for every absent or non-negative length); an operation that is neither an
    insert nor a delete returns the content unchanged. *)
Theorem apply_out_of_range (content : list ascii) (op : Operation) :
  (Op.type op = "insert" -> Z.of_nat (length content) < Op.position op ->
   apply content op = content ++ text_or_empty op) /\
  (Op.type op = "delete" -> Z.of_nat (length content) < Op.position op ->
   Z.of_nat (length content) <= Op.position op + length_or_0 op ->
   apply content op = content) /\
  (Op.type op = "delete" -> Z.of_nat (length content) < Op.position op ->
   0 <= length_or_0 op ->
   apply content op = content) /\
  (Op.type op <> "insert" -> Op.type op <> "delete" -> apply content op = content).
Proof.
  assert (Hdel : Op.type op = "delete" -> Z.of_nat (length content) < Op.position op ->
                 Z.of_nat (length content) <= Op.position op + length_or_0 op ->
                 apply content op = content).
  { intros Ht Hp Hl. unfold apply. rewrite Ht. simpl.
    rewrite slice_to_nonneg, slice_from_nonneg by lia.
    rewrite firstn_all2, skipn_all2 by lia. apply app_nil_r. }
  repeat split.
  - intros Ht Hp. unfold apply. rewrite Ht. simpl.
    rewrite slice_to_nonneg, slice_from_nonneg by lia.
    rewrite firstn_all2, skipn_all2 by lia. rewrite app_nil_r. reflexivity.
  - exact Hdel.
  - intros Ht Hp Hl. apply Hdel; auto; lia.
  - intros Hi Hd. unfold apply.
    destruct (String.eqb_spec (Op.type op) "insert"); [contradiction|].
    destruct (String.eqb_spec (Op.type op) "delete"); [contradiction|].
    reflexivity.
Qed.

Lemma apply_out_of_range_witness :
  let content := str "abc" in
  let ins := Op.mk "1" "doc1" "user1" 0 "insert" 7 (Some (str "xy")) None in
  let del := Op.mk "2" "doc1" "user1" 0 "delete" 7 None (Some 2) in
  let other := Op.mk "3" "doc1" "user1" 0 "replace" 1 (Some (str "xy")) (Some 1) in
  validate content ins = false /\ validate content del = false /\
  apply content ins = content ++ str "xy" /\
  apply content del = content /\
  apply content other = content.
Proof.
  intros content ins del other.
  do 2 (split; [reflexivity|]).
  split; [|split].
  - apply (proj1 (apply_out_of_range content ins)); vm_compute; congruence.
  - apply (proj1 (proj2 (proj2 (apply_out_of_range content del)))); vm_compute; congruence.
  - apply (proj2 (proj2 (proj2 (apply_out_of_range content other)))); discriminate.
Defined.

(** C10 as stated fails for a delete whose length is negative: the suffix
    then starts before the end of the content, which is repeated. *)
Lemma apply_delete_negative_length :
  let content := str "abc" in
  let op := Op.mk "1" "doc1" "user1" 0 "delete" 5 None (Some (-4)) in
  Z.of_nat (length content) < Op.position op /\
  apply content op = str "abcbc" /\
  apply content op <> content.
Proof. split; [reflexivity|]. split; [reflexivity|discriminate]. Qed.

End ApplyTotal.

(** ** The document authority *)

Section Authority.

Import DocumentManager.

Lemma loadDocument_loaded docId now dm st :
  documents dm !! docId = Some st -> loadDocument docId now dm = (Ok st, dm).
Proof.
  intros H. unfold loadDocument, bind, getState, ret. rewrite H. reflexivity.
Qed.

(** What [loadDocument] can do: hand out the state already in the registry,
    or fetch the record and register a fresh state for it, or fail without
    touching anything. *)
Lemma loadDocument_cases docId now dm r dm1 :
  loadDocument docId now dm = (r, dm1) ->
  (exists st, r = Ok st /\ documents dm1 !! docId = Some st /\ model dm1 = model dm /\
              (dm1 = dm \/
               documents dm !! docId = None /\ pendingOps st = [] /\
               dm1 = mk (<[docId := st]> (documents dm)) (model dm) /\
               exists doc, DocumentModel.records (model dm) !! docId = Some doc /\
                           content st = DocumentModel.content doc /\
                           version st = DocumentModel.version doc))
  \/ (dm1 = dm /\ documents dm !! docId = None /\
      (r = Throw (Error "Document not found")
       \/ exists m, DocumentModel.outage (model dm) = Some m /\ r = Throw (StoreFailure m))).
Proof.
  unfold loadDocument, bind, getState, findById, DocumentModel.findById, setState, ret, throw.
  destruct (documents dm !! docId) as [st|] eqn:Hd.
  - intros [= <- <-]. left. exists st. auto.
  - destruct (DocumentModel.outage (model dm)) as [m|] eqn:Ho.
    + intros [= <- <-]. right. repeat split; auto. right. exists m. auto.
    + destruct (DocumentModel.records (model dm) !! docId) as [doc|] eqn:Hr.
      * intros [= <- <-]. left. eexists. split; [reflexivity|]. simpl.
        rewrite lookup_insert_eq. repeat split; auto.
        right. repeat split; auto. exists doc. auto.
      * intros [= <- <-]. right. auto.
Qed.

(** [applyOperation] on a document that is in the registry, for an operation
    that passes [validate]: the steps after the validation, written out. *)
Lemma applyOperation_valid docId op now dm st :
  documents dm !! docId = Some st ->
  OTEngine.validate (content st) op = true ->
  let top := transformPending st op in
  let st1 := mkState (OTEngine.apply (content st) top) (version st + 1)
                     (pendingOps st ++ [top]) (lastSaveTime st)
                     (opsSinceLastSave st + 1) in
  let dm1 := mk (<[docId := st1]> (documents dm)) (model dm) in
  applyOperation docId op now dm =
    if (SAVE_INTERVAL <=? now - lastSaveTime st)
       || (SAVE_OP_THRESHOLD <=? opsSinceLastSave st + 1)
    then
      match DocumentModel.outage (model dm) with
      | Some m => (Throw (StoreFailure m), dm1)
      | None =>
          (Ok (mkResult (version st + 1) top),
           mk (<[docId := mkState (content st1) (version st1)
                                  (slice_last 10 (pendingOps st1)) now 0]>
                 (documents dm1))
              (snd (DocumentModel.findByIdAndUpdate (model dm) docId
                      (DocumentModel.mkDocument (content st1) (version st1) now))))
      end
    else (Ok (mkResult (version st + 1) top), dm1).
Proof.
  intros Hd Hv. simpl.
  unfold applyOperation, bind. rewrite (loadDocument_loaded _ _ _ _ Hd), Hv. simpl.
  destruct ((SAVE_INTERVAL <=? now - lastSaveTime st)
            || (SAVE_OP_THRESHOLD <=? opsSinceLastSave st + 1)); [|reflexivity].
  unfold persistDocument, bind, getState, findByIdAndUpdate, setState, ret. simpl.
  rewrite lookup_insert_eq.
  unfold DocumentModel.findByIdAndUpdate. simpl.
  destruct (DocumentModel.outage (model dm)); [reflexivity|].
  destruct (DocumentModel.records (model dm) !! docId); reflexivity.
Qed.

Lemma applyOperation_invalid docId op now dm st :
  documents dm !! docId = Some st ->
  OTEngine.validate (content st) op = false ->
  applyOperation docId op now dm = (Throw (Error "Invalid operation"), dm).
Proof.
  intros Hd Hv.
  unfold applyOperation, bind. rewrite (loadDocument_loaded _ _ _ _ Hd), Hv. reflexivity.
Qed.

(** [applyOperation] continues from the registry [loadDocument] leaves. *)
Lemma applyOperation_after_load docId op now dm st dm1 :
  loadDocument docId now dm = (Ok st, dm1) ->
  applyOperation docId op now dm = applyOperation docId op now dm1.
Proof.
  intros Hl. destruct (loadDocument_cases _ _ _ _ _ Hl) as [(st' & [= <-] & Hd & _)|(_ & _ & [H|(m & _ & H)])];
    try discriminate.
  unfold applyOperation, bind.
  rewrite Hl, (loadDocument_loaded _ _ _ _ Hd). reflexivity.
Qed.

Lemma applyOperation_load_fails docId op now dm e dm1 :
  loadDocument docId now dm = (Throw e, dm1) ->
  applyOperation docId op now dm = (Throw e, dm1).
Proof. intros Hl. unfold applyOperation, bind. rewrite Hl. reflexivity. Qed.

Lemma transformPending_current st op :
  version st <= Op.baseVersion op -> transformPending st op = op.
Proof.
  intros H. unfold transformPending.
  destruct (Z.ltb_spec (Op.baseVersion op) (version st)); [lia|reflexivity].
Qed.


(** A successful [applyOperation] validated the submitted operation against
    the state [loadDocument] gave, and returns that state's version plus one
    with the operation transformed against its pending operations. *)
Lemma applyOperation_ok docId op now dm r dm' :
  applyOperation docId op now dm = (Ok r, dm') ->
  exists st dm1,
    loadDocument docId now dm = (Ok st, dm1) /\
    OTEngine.validate (content st) op = true /\
    r = mkResult (version st + 1) (transformPending st op).
Proof.
  intros Ha. destruct (loadDocument docId now dm) as [[st|e] dm1] eqn:Hl.
  - exists st, dm1. split; [reflexivity|].
    rewrite (applyOperation_after_load _ _ _ _ _ _ Hl) in Ha.
    destruct (loadDocument_cases _ _ _ _ _ Hl) as [(st' & [= <-] & Hd & _)|(_ & _ & [H|(m & _ & H)])];
      try discriminate.
    destruct (OTEngine.validate (content st) op) eqn:Hv.
    + split; [reflexivity|].
      rewrite (applyOperation_valid _ _ _ _ _ Hd Hv) in Ha.
      destruct ((SAVE_INTERVAL <=? now - lastSaveTime st)
                || (SAVE_OP_THRESHOLD <=? opsSinceLastSave st + 1)).
      * destruct (DocumentModel.outage (model dm1)); [discriminate|].
        injection Ha as <- _. reflexivity.
      * injection Ha as <- _. reflexivity.
    + rewrite (applyOperation_invalid _ _ _ _ _ Hd Hv) in Ha. discriminate.
  - rewrite (applyOperation_load_fails _ _ _ _ _ _ Hl) in Ha. discriminate.
Qed.

(** A failure of [applyOperation] with an [Error] of its own comes before
    any write to the document: the manager is left as [loadDocument] leaves
    it. *)
Lemma applyOperation_Error docId op now dm msg dm' :
  applyOperation docId op now dm = (Throw (Error msg), dm') ->
  dm' = snd (loadDocument docId now dm) /\
  (msg = "Document not found" \/ msg = "Invalid operation").
Proof.
  intros Ha. destruct (loadDocument docId now dm) as [[st|e] dm1] eqn:Hl; simpl.
  - rewrite (applyOperation_after_load _ _ _ _ _ _ Hl) in Ha.
    destruct (loadDocument_cases _ _ _ _ _ Hl) as [(st' & [= <-] & Hd & _)|(_ & _ & [H|(m & _ & H)])];
      try discriminate.
    destruct (OTEngine.validate (content st) op) eqn:Hv.
    + rewrite (applyOperation_valid _ _ _ _ _ Hd Hv) in Ha.
      destruct ((SAVE_INTERVAL <=? now - lastSaveTime st)
                || (SAVE_OP_THRESHOLD <=? opsSinceLastSave st + 1));
        [destruct (DocumentModel.outage (model dm1))|]; discriminate.
    + rewrite (applyOperation_invalid _ _ _ _ _ Hd Hv) in Ha.
      injection Ha as <- <-. auto.
  - rewrite (applyOperation_load_fails _ _ _ _ _ _ Hl) in Ha.
    injection Ha as -> <-. split; [reflexivity|].
    destruct (loadDocument_cases _ _ _ _ _ Hl) as [(st' & H & _)|(_ & _ & [H|(m & _ & H)])];
      try discriminate.
    injection H as <-. auto.
Qed.

(** Loading twice gives the same state as loading once. *)
Lemma loadDocument_again docId now dm :
  fst (loadDocument docId now (snd (loadDocument docId now dm)))
  = fst (loadDocument docId now dm).
Proof.
  destruct (loadDocument docId now dm) as [r dm1] eqn:Hl. simpl.
  destruct (loadDocument_cases _ _ _ _ _ Hl) as [(st & -> & Hd & _)|(-> & _)].
  - rewrite (loadDocument_loaded _ _ _ _ Hd). reflexivity.
  - rewrite Hl. reflexivity.
Qed.

Lemma loadDocument_model docId now dm :
  model (snd (loadDocument docId now dm)) = model dm.
Proof.
  destruct (loadDocument docId now dm) as [r dm1] eqn:Hl. simpl.
  destruct (loadDocument_cases _ _ _ _ _ Hl) as [(st & _ & _ & Hm & _)|(-> & _)]; auto.
Qed.

Lemma slice_last_snoc {A} n (l : list A) x :
  exists l', slice_last (S n) (l ++ [x]) = l' ++ [x].
Proof.
  unfold slice_last. exists (skipn (length (l ++ [x]) - S n) l).
  rewrite skipn_app. f_equal.
  replace (length (l ++ [x]) - S n - length l)%nat with 0%nat; [reflexivity|].
  rewrite length_app. simpl. lia.
Qed.

(** The transformed operation keeps the author and the type of the
    submitted one. *)
Lemma transformPending_keeps st op :
  Op.userId (transformPending st op) = Op.userId op /\
  Op.type (transformPending st op) = Op.type op.
Proof.
  unfold transformPending. destruct (Op.baseVersion op <? version st); [|auto].
  generalize (List.filter (fun pendingOp => Op.baseVersion op <=? Op.baseVersion pendingOp)
                          (pendingOps st)).
  intros l. revert op. induction l as [|p l IH]; intros op; simpl; [auto|].
  destruct (IH (OTEngine.transform op p)) as [-> ->].
  split; apply transform_keeps.
Qed.


End Authority.

(** ** The session router *)

Section Router.

Import ConnectionManager.

Lemma get_In clients clientId client :
  get clients clientId = Some client -> In (clientId, client) clients.
Proof.
  induction clients as [|[k c] rest IH]; simpl; [discriminate|].
  destruct (String.eqb_spec k clientId) as [->|Hne].
  - intros [= ->]. left. reflexivity.
  - intros H. right. apply IH, H.
Qed.

Lemma sendToClient_In cm clientId message k m :
  In (k, m) (sendToClient cm clientId message) -> k = clientId /\ m = message.
Proof.
  unfold sendToClient.
  destruct (get (clients cm) clientId) as [c|]; [|intros []].
  destruct (is_open (ws c)); [|intros []].
  intros [[= <- <-]|[]]. auto.
Qed.

Lemma sendToClient_open cm clientId message client :
  get (clients cm) clientId = Some client -> ws client = OPEN ->
  sendToClient cm clientId message = [(clientId, message)].
Proof. intros Hg Ho. unfold sendToClient. rewrite Hg, Ho. reflexivity. Qed.

(** The frames of a broadcast: the message, once for each open session of
    the document other than the excluded one. *)
Lemma broadcastToDocument_In cm docId' message exclude k m :
  In (k, m) (broadcastToDocument cm docId' message exclude) <->
  m = message /\
  exists client, In (k, client) (clients cm) /\ docId client = Some docId' /\
                 exclude <> Some k /\ ws client = OPEN.
Proof.
  unfold broadcastToDocument. rewrite in_flat_map. split.
  - intros [[k' c] [Hin Hs]]. simpl in Hs.
    destruct (recipient docId' exclude k' c) eqn:Hr; [|destruct Hs].
    destruct (is_open (ws c)) eqn:Ho; [|destruct Hs].
    destruct Hs as [[= <- <-]|[]]. split; [reflexivity|].
    exists c. unfold recipient in Hr. apply andb_prop in Hr as [Hd He].
    destruct (docId c) as [d|]; [|discriminate].
    apply String.eqb_eq in Hd as ->.
    repeat split; auto.
    + destruct exclude as [x|]; [|discriminate].
      intros [= ->]. rewrite String.eqb_refl in He. discriminate.
    + destruct (ws c); try discriminate. reflexivity.
  - intros [-> (c & Hin & Hd & He & Ho)]. exists (k, c). split; [exact Hin|]. simpl.
    unfold recipient. rewrite Hd, String.eqb_refl, Ho. simpl.
    destruct exclude as [x|]; simpl; [|left; reflexivity].
    destruct (String.eqb_spec k x) as [->|_]; [congruence|]. left. reflexivity.
Qed.

(** The ways [handleMessage] treats an [APPLY_OP]. *)
Lemma handleMessage_APPLY_OP cm clientId op now client d :
  get (clients cm) clientId = Some client -> joined client = Some d ->
  handleMessage cm clientId (APPLY_OP op) now =
    match DocumentManager.applyOperation d op now (documentManager cm) with
    | (Ok result, dm) =>
        let cm' := mk (clients cm) dm (presenceManager cm) in
        (cm', sendToClient cm' clientId
                (ACK_OP (Op.opId op) (DocumentManager.newVersion result))
              ++ broadcastToDocument cm' d
                   (BROADCAST_OP (DocumentManager.transformedOp result)) (Some clientId))
    | (Throw e, dm) =>
        let cm' := mk (clients cm) dm (presenceManager cm) in
        (cm', sendToClient cm' clientId (ERROR (exn_message e)))
    end.
Proof.
  intros Hg Hj. unfold handleMessage, handleApplyOp. rewrite Hg, Hj.
  destruct (DocumentManager.applyOperation d op now (documentManager cm)) as [[r|e] dm];
    reflexivity.
Qed.

Lemma handleMessage_APPLY_OP_idle cm clientId op now :
  (forall client, get (clients cm) clientId = Some client -> joined client = None) ->
  handleMessage cm clientId (APPLY_OP op) now = (cm, []).
Proof.
  intros H. unfold handleMessage, handleApplyOp.
  destruct (get (clients cm) clientId) as [c|]; [|reflexivity].
  rewrite (H c eq_refl). reflexivity.
Qed.

End Router.

(** ** The claims about the authority and the router *)

Section AuthorityClaims.

Import DocumentManager.

(** C2, as the code has it.  [applyOperation] has no check of
    [op.baseVersion] against the version or the retained tail, and fails with
    neither FromTheFuture nor TooStale.  On a document with state [st], an
    operation that fails [validate] on the current content is rejected with
    "Invalid operation" and nothing changes.  One that passes is applied
    whatever its base version: the content becomes [apply(content, op')] and
    the version advances by 1, where [op'] is the operation itself when
    [op.baseVersion >= version], and otherwise the operation transformed
    against the retained operations whose base version is at least
    [op.baseVersion]; the call returns [(version + 1, op')], unless the
    write-back it triggers is rejected by the store. *)
Theorem applyOperation_any_baseVersion docId op now dm st :
  documents dm !! docId = Some st ->
  (OTEngine.validate (content st) op = false ->
   applyOperation docId op now dm = (Throw (Error "Invalid operation"), dm)) /\
  (OTEngine.validate (content st) op = true ->
   (exists st',
      documents (snd (applyOperation docId op now dm)) !! docId = Some st' /\
      content st' = OTEngine.apply (content st) (transformPending st op) /\
      version st' = version st + 1) /\
   (fst (applyOperation docId op now dm)
    = Ok (mkResult (version st + 1) (transformPending st op))
    \/ exists m, DocumentModel.outage (model dm) = Some m /\
                 fst (applyOperation docId op now dm) = Throw (StoreFailure m))) /\
  (version st <= Op.baseVersion op -> transformPending st op = op).
Proof.
  intros Hd. split; [|split].
  - apply applyOperation_invalid, Hd.
  - intros Hv. rewrite (applyOperation_valid _ _ _ _ _ Hd Hv).
    destruct ((SAVE_INTERVAL <=? now - lastSaveTime st)
              || (SAVE_OP_THRESHOLD <=? opsSinceLastSave st + 1)).
    + destruct (DocumentModel.outage (model dm)) as [m|]; simpl.
      * split; [|right; exists m; auto].
        eexists. rewrite lookup_insert_eq. split; [reflexivity|]. auto.
      * split; [|left; reflexivity].
        eexists. rewrite lookup_insert_eq. split; [reflexivity|]. auto.
    + simpl. split; [|left; reflexivity].
      eexists. rewrite lookup_insert_eq. split; [reflexivity|]. auto.
  - apply transformPending_current.
Qed.

Lemma applyOperation_any_baseVersion_witness :
  let st := mkState (str "zzzzzzzzzzabcdefgh") 100 Scenario.tail 0 0 in
  let dm := Scenario.authority st None in
  let op := Scenario.insert "op2" "bob" 50 8 "Y" in
  documents dm !! "d1" = Some st /\
  OTEngine.validate (content st) op = true /\
  Op.position (transformPending st op) = 18 /\
  exists st',
    documents (snd (applyOperation "d1" op 0 dm)) !! "d1" = Some st' /\
    content st' = OTEngine.apply (content st) (transformPending st op) /\
    version st' = version st + 1.
Proof.
  intros st dm op.
  do 3 (split; [vm_compute; reflexivity|]).
  apply (proj1 (proj2 (applyOperation_any_baseVersion "d1" op 0 dm st eq_refl)));
    vm_compute; reflexivity.
Defined.

(** C2 as stated fails: an operation from the future and one older than
    the retained tail are both applied (the situation of scenario (D):
    ten retained operations, version 100, base version 50). *)
Lemma applyOperation_accepts_future_and_stale :
  let st := mkState (str "zzzzzzzzzzabcdefgh") 100 Scenario.tail 0 0 in
  let dm := Scenario.authority st None in
  let future := Scenario.insert "op1" "alice" 150 0 "X" in
  let stale := Scenario.insert "op2" "bob" 50 8 "Y" in
  Op.baseVersion future > version st /\
  fst (applyOperation "d1" future 0 dm) = Ok (mkResult 101 future) /\
  content <$> documents (snd (applyOperation "d1" future 0 dm)) !! "d1"
  = Some (str "Xzzzzzzzzzzabcdefgh") /\
  Op.baseVersion stale < version st - Z.of_nat (length (pendingOps st)) /\
  fst (applyOperation "d1" stale 0 dm)
  = Ok (mkResult 101 (Op.set_position stale 18)) /\
  content <$> documents (snd (applyOperation "d1" stale 0 dm)) !! "d1"
  = Some (str "zzzzzzzzzzabcdefghY").
Proof. repeat split; vm_compute; reflexivity. Qed.

(** C4, as the code has it.  Validation is run on the submitted operation,
    before any transformation, against the current content: the call fails
    with "Invalid operation" exactly when [validate(content, op)] is false,
    and then nothing is applied.  The transformed operation is applied without
    being validated. *)
Theorem validation_is_on_submitted_op docId op now dm st :
  documents dm !! docId = Some st ->
  (fst (applyOperation docId op now dm) = Throw (Error "Invalid operation")
   <-> OTEngine.validate (content st) op = false) /\
  (OTEngine.validate (content st) op = false -> snd (applyOperation docId op now dm) = dm).
Proof.
  intros Hd. split; [split|].
  - destruct (OTEngine.validate (content st) op) eqn:Hv; [|reflexivity].
    rewrite (applyOperation_valid _ _ _ _ _ Hd Hv).
    destruct ((SAVE_INTERVAL <=? now - lastSaveTime st)
              || (SAVE_OP_THRESHOLD <=? opsSinceLastSave st + 1));
      [destruct (DocumentModel.outage (model dm))|]; discriminate.
  - intros Hv. rewrite (applyOperation_invalid _ _ _ _ _ Hd Hv). reflexivity.
  - intros Hv. rewrite (applyOperation_invalid _ _ _ _ _ Hd Hv). reflexivity.
Qed.

Lemma validation_is_on_submitted_op_witness :
  let st := mkState (str "efgh") 1 [Scenario.delete "op1" "alice" 0 0 4] 0 1 in
  let dm := Scenario.authority st None in
  let op := Scenario.insert "op2" "bob" 0 8 "!" in
  documents dm !! "d1" = Some st /\
  OTEngine.validate (content st) op = false /\
  snd (applyOperation "d1" op 0 dm) = dm.
Proof.
  intros st dm op.
  do 2 (split; [vm_compute; reflexivity|]).
  apply (proj2 (validation_is_on_submitted_op "d1" op 0 dm st eq_refl)).
  vm_compute; reflexivity.
Defined.

(** C4 as stated fails both ways.  After alice has deleted "abcd" from
    "abcdefgh", bob's concurrent delete of "cd" passes validation on "efgh"
    although its transform, a delete of length 0, does not: it is applied.
    And bob's concurrent insert at the end, position 8, is rejected although
    its transform, an insert at position 4, is valid. *)
Lemma transformed_op_is_not_validated :
  let st := mkState (str "efgh") 1 [Scenario.delete "op1" "alice" 0 0 4] 0 1 in
  let dm := Scenario.authority st None in
  let del := Scenario.delete "op2" "bob" 0 2 2 in
  let ins := Scenario.insert "op3" "bob" 0 8 "!" in
  OTEngine.validate (content st) (transformPending st del) = false /\
  fst (applyOperation "d1" del 0 dm) = Ok (mkResult 2 (transformPending st del)) /\
  version <$> documents (snd (applyOperation "d1" del 0 dm)) !! "d1" = Some 2 /\
  OTEngine.validate (content st) (transformPending st ins) = true /\
  fst (applyOperation "d1" ins 0 dm) = Throw (Error "Invalid operation").
Proof. repeat split; vm_compute; reflexivity. Qed.

End AuthorityClaims.

Section RouterClaims.

Import ConnectionManager.

(** The sessions of the examples are what two joins produce: bob, joining
    second, is sent the state of the document, and alice is told. *)
Example joins_reach_the_editing_sessions :
  let cm1 := fst (handleMessage Scenario.connected "c1" (JOIN_DOCUMENT "d1") 0) in
  let r := handleMessage cm1 "c2" (JOIN_DOCUMENT "d1") 0 in
  clients (fst r) = Scenario.sessions /\
  documentManager (fst r)
  = Scenario.authority (DocumentManager.mkState (str "abcdefgh") 0 [] 0 0) None /\
  snd r = [("c2", SYNC_STATE (str "abcdefgh") 0
                    (PresenceManager.getCursors (presenceManager (fst r)) "d1"));
           ("c1", USER_JOINED "bob")].
Proof. repeat split; vm_compute; reflexivity. Qed.

(** Scenario (A) of the specification: two inserts at position 2 of "test",
    both conceived against version 0.  The second is shifted behind the
    first. *)
Example scenario_A_concurrent_inserts :
  let st := DocumentManager.mkState (str "test") 0 [] 0 0 in
  let r1 := handleMessage (Scenario.editing st None) "c1"
              (APPLY_OP (Scenario.insert "op1" "alice" 0 2 "A")) 0 in
  let r2 := handleMessage (fst r1) "c2"
              (APPLY_OP (Scenario.insert "op2" "bob" 0 2 "B")) 0 in
  DocumentManager.content <$> Scenario.state_after r1 = Some (str "teAst") /\
  DocumentManager.content <$> Scenario.state_after r2 = Some (str "teABst") /\
  snd r2 = [("c2", ACK_OP "op2" 2);
            ("c1", BROADCAST_OP (Scenario.insert "op2" "bob" 0 3 "B"))].
Proof. repeat split; vm_compute; reflexivity. Qed.

(** Scenario (B): an insert at position 11 of "hello world", conceived
    against version 5, arrives after "big " was inserted at 6. *)
Example scenario_B_insert_shifted :
  let st := DocumentManager.mkState (str "hello world") 5 [] 0 0 in
  let r1 := handleMessage (Scenario.editing st None) "c1"
              (APPLY_OP (Scenario.insert "op1" "alice" 5 6 "big ")) 0 in
  let r2 := handleMessage (fst r1) "c2"
              (APPLY_OP (Scenario.insert "op2" "bob" 5 11 "!")) 0 in
  DocumentManager.content <$> Scenario.state_after r1 = Some (str "hello big world") /\
  DocumentManager.content <$> Scenario.state_after r2 = Some (str "hello big world!") /\
  DocumentManager.version <$> Scenario.state_after r2 = Some 7.
Proof. repeat split; vm_compute; reflexivity. Qed.

(** Scenario (C) as the code runs it: the second delete, of "def" at
    position 3, is validated against the current content "abgh" before it is
    transformed, and is rejected. *)
Example scenario_C_second_delete_rejected :
  let st := DocumentManager.mkState (str "abcdefgh") 0 [] 0 0 in
  let r1 := handleMessage (Scenario.editing st None) "c1"
              (APPLY_OP (Scenario.delete "op1" "alice" 0 2 4)) 0 in
  let r2 := handleMessage (fst r1) "c2"
              (APPLY_OP (Scenario.delete "op2" "bob" 0 3 3)) 0 in
  DocumentManager.content <$> Scenario.state_after r1 = Some (str "abgh") /\
  snd r2 = [("c2", ERROR "Invalid operation")] /\
  Scenario.state_after r2 = Scenario.state_after r1.
Proof. repeat split; vm_compute; reflexivity. Qed.

(** C1, as the code has it.  [handleApplyOp] hands the payload to
    [applyOperation] as it came, and [transform] keeps [userId]: the op of
    every [BROADCAST_OP] sent for an [APPLY_OP] carries the [userId] of the
    client's payload.  The [userId] of the session is not consulted. *)
Theorem broadcast_op_keeps_payload_userId cm clientId op now peer op' :
  In (peer, BROADCAST_OP op') (snd (handleMessage cm clientId (APPLY_OP op) now)) ->
  Op.userId op' = Op.userId op.
Proof.
  destruct (get (clients cm) clientId) as [client|] eqn:Hg;
    [destruct (joined client) as [d|] eqn:Hj|].
  - rewrite (handleMessage_APPLY_OP _ _ _ _ _ _ Hg Hj).
    destruct (DocumentManager.applyOperation d op now (documentManager cm))
      as [[r|e] dm] eqn:Ha; simpl.
    + destruct (applyOperation_ok _ _ _ _ _ _ Ha) as (st & dm1 & _ & _ & ->). simpl.
      rewrite in_app_iff. intros [H|H].
      * apply sendToClient_In in H as [_ H]. discriminate.
      * apply broadcastToDocument_In in H as [[= ->] _].
        apply transformPending_keeps.
    + intros H. apply sendToClient_In in H as [_ H]. discriminate.
  - rewrite handleMessage_APPLY_OP_idle; [intros []|].
    intros c. rewrite Hg. intros [= <-]. exact Hj.
  - rewrite handleMessage_APPLY_OP_idle; [intros []|].
    intros c. rewrite Hg. discriminate.
Qed.

Lemma broadcast_op_keeps_payload_userId_witness :
  let st := DocumentManager.mkState (str "Xabcdefgh") 1
              [Scenario.insert "op1" "alice" 0 0 "X"] 0 1 in
  let cm := Scenario.editing st None in
  let op := Scenario.insert "op2" "bob" 0 8 "!" in
  let op' := Op.set_position op 9 in
  In ("c1", BROADCAST_OP op') (snd (handleMessage cm "c2" (APPLY_OP op) 0)) /\
  Op.userId op' = Op.userId op.
Proof.
  intros st cm op op'.
  assert (H : In ("c1", BROADCAST_OP op') (snd (handleMessage cm "c2" (APPLY_OP op) 0))).
  { vm_compute. right. left. reflexivity. }
  split; [exact H|].
  exact (broadcast_op_keeps_payload_userId cm "c2" op 0 "c1" op' H).
Defined.

(** C1 as stated fails: the session of alice submits an operation whose
    payload names mallory, and bob is sent that operation under the name of
    mallory. *)
Lemma broadcast_op_userId_is_not_the_session_userId :
  let cm := Scenario.editing (DocumentManager.mkState (str "abcdefgh") 0 [] 0 0) None in
  let op := Scenario.insert "op1" "mallory" 0 8 "!" in
  userId <$> get (clients cm) "c1" = Some "alice" /\
  snd (handleMessage cm "c1" (APPLY_OP op) 0)
  = [("c1", ACK_OP "op1" 1); ("c2", BROADCAST_OP op)] /\
  Op.userId op = "mallory" /\
  Op.userId op <> "alice".
Proof. repeat split; try (vm_compute; reflexivity). discriminate. Qed.

(** C8, as the code has it.  The [CURSOR_UPDATE] frames sent for a cursor
    update go to the other open sessions of the document and carry the
    position only: the message has no [userId] field. *)
Theorem cursor_update_carries_position_only cm clientId position now k m :
  In (k, m) (snd (handleMessage cm clientId (CURSOR_UPDATE position) now)) ->
  m = CURSOR_UPDATE position /\
  message_position m = Some position /\
  message_userId m = None /\
  k <> clientId.
Proof.
  unfold handleMessage, handleCursorUpdate.
  destruct (get (clients cm) clientId) as [client|]; [|intros []].
  destruct (joined client) as [d|]; [|intros []]. simpl.
  intros H. apply broadcastToDocument_In in H as [-> (c & _ & _ & He & _)].
  repeat split. congruence.
Qed.

Lemma cursor_update_carries_position_only_witness :
  let cm := Scenario.editing (DocumentManager.mkState (str "abcdefgh") 0 [] 0 0) None in
  In ("c2", CURSOR_UPDATE 7) (snd (handleMessage cm "c1" (CURSOR_UPDATE 7) 0)) /\
  message_userId (CURSOR_UPDATE 7) = None.
Proof.
  intros cm.
  assert (H : In ("c2", CURSOR_UPDATE 7) (snd (handleMessage cm "c1" (CURSOR_UPDATE 7) 0))).
  { vm_compute. left. reflexivity. }
  split; [exact H|].
  exact (proj1 (proj2 (proj2 (cursor_update_carries_position_only cm "c1" 7 0 "c2" _ H)))).
Defined.

(** C8 as stated fails: what bob is sent for the cursor of alice does not
    name her. *)
Lemma cursor_update_has_no_userId :
  let cm := Scenario.editing (DocumentManager.mkState (str "abcdefgh") 0 [] 0 0) None in
  userId <$> get (clients cm) "c1" = Some "alice" /\
  snd (handleMessage cm "c1" (CURSOR_UPDATE 7) 0) = [("c2", CURSOR_UPDATE 7)] /\
  message_userId (CURSOR_UPDATE 7) <> Some "alice".
Proof. repeat split; try (vm_compute; reflexivity). discriminate. Qed.

(** C3, as the code has it.  [applyOperation] has no test for an operation
    that the transform has emptied.  A valid delete whose length became zero
    against the tail is applied like any other: the content stays as it was
    (deleting nothing), but the operation is appended to [pendingOps] and the
    version advances by 1; the originator is sent [ACK_OP] with the advanced
    version, and every other open session of the document is sent a
    [BROADCAST_OP] with the emptied operation. *)
Theorem noop_transform_is_applied_and_broadcast cm clientId client d st op now :
  get (clients cm) clientId = Some client -> joined client = Some d ->
  DocumentManager.documents (documentManager cm) !! d = Some st ->
  DocumentModel.outage (DocumentManager.model (documentManager cm)) = None ->
  OTEngine.validate (DocumentManager.content st) op = true ->
  Op.type op = "delete" ->
  Op.length (DocumentManager.transformPending st op) = Some 0 ->
  let op' := DocumentManager.transformPending st op in
  let r := handleMessage cm clientId (APPLY_OP op) now in
  (exists st' l,
     DocumentManager.documents (documentManager (fst r)) !! d = Some st' /\
     DocumentManager.content st' = DocumentManager.content st /\
     DocumentManager.version st' = DocumentManager.version st + 1 /\
     DocumentManager.pendingOps st' = l ++ [op']) /\
  (ws client = OPEN ->
   In (clientId, ACK_OP (Op.opId op) (DocumentManager.version st + 1)) (snd r)) /\
  (forall peer c,
     In (peer, c) (clients cm) -> peer <> clientId -> docId c = Some d -> ws c = OPEN ->
     In (peer, BROADCAST_OP op') (snd r)).
Proof.
  intros Hg Hj Hd Ho Hv Ht Hl op' r. subst r.
  rewrite (handleMessage_APPLY_OP _ _ _ _ _ _ Hg Hj).
  rewrite (applyOperation_valid _ _ _ _ _ Hd Hv), Ho. fold op'.
  assert (Hc : OTEngine.apply (DocumentManager.content st) op' = DocumentManager.content st).
  { apply apply_delete_nothing.
    - unfold op'. rewrite (proj2 (transformPending_keeps st op)). exact Ht.
    - unfold OTEngine.length_or_0. unfold op'. rewrite Hl. reflexivity. }
  destruct ((DocumentManager.SAVE_INTERVAL <=? now - DocumentManager.lastSaveTime st)
            || (DocumentManager.SAVE_OP_THRESHOLD <=? DocumentManager.opsSinceLastSave st + 1));
    simpl.
  - split; [|split].
    + destruct (slice_last_snoc 9 (DocumentManager.pendingOps st) op') as [l Hs].
      eexists; exists l. rewrite lookup_insert_eq. split; [reflexivity|]. simpl. auto.
    + intros Hw. apply in_or_app. left.
      rewrite (sendToClient_open _ _ _ client); auto. left. reflexivity.
    + intros peer c Hin Hne Hdoc Hw. apply in_or_app. right.
      apply broadcastToDocument_In. split; [reflexivity|]. exists c.
      repeat split; auto. congruence.
  - split; [|split].
    + eexists; exists (DocumentManager.pendingOps st).
      rewrite lookup_insert_eq. split; [reflexivity|]. simpl. auto.
    + intros Hw. apply in_or_app. left.
      rewrite (sendToClient_open _ _ _ client); auto. left. reflexivity.
    + intros peer c Hin Hne Hdoc Hw. apply in_or_app. right.
      apply broadcastToDocument_In. split; [reflexivity|]. exists c.
      repeat split; auto. congruence.
Qed.

Lemma noop_transform_is_applied_and_broadcast_witness :
  let st := DocumentManager.mkState (str "abgh") 1
              [Scenario.delete "op1" "alice" 0 2 4] 0 1 in
  let cm := Scenario.editing st None in
  let op := Scenario.delete "op2" "bob" 0 3 1 in
  let r := handleMessage cm "c2" (APPLY_OP op) 0 in
  OTEngine.validate (DocumentManager.content st) op = true /\
  DocumentManager.transformPending st op = Scenario.delete "op2" "bob" 0 2 0 /\
  In ("c2", ACK_OP "op2" 2) (snd r).
Proof.
  intros st cm op r.
  do 2 (split; [vm_compute; reflexivity|]).
  apply (proj1 (proj2 (noop_transform_is_applied_and_broadcast
                         cm "c2" (mkClient OPEN "bob" (Some "d1")) "d1" st op 0
                         eq_refl eq_refl eq_refl eq_refl eq_refl eq_refl eq_refl))).
  reflexivity.
Defined.

(** C3 as stated fails, on the scenario (C) of the specification with a
    second delete that is valid on the current content: after alice has
    deleted "cdef" from "abcdefgh", bob's concurrent delete of "d" transforms
    to a delete of length 0.  It is appended to [pendingOps], the version goes
    from 1 to 2, bob is acknowledged with version 2, and alice is sent the
    emptied operation. *)
Lemma noop_transform_advances_version :
  let st := DocumentManager.mkState (str "abgh") 1
              [Scenario.delete "op1" "alice" 0 2 4] 0 1 in
  let cm := Scenario.editing st None in
  let op := Scenario.delete "op2" "bob" 0 3 1 in
  let op' := Scenario.delete "op2" "bob" 0 2 0 in
  let r := handleMessage cm "c2" (APPLY_OP op) 0 in
  DocumentManager.transformPending st op = op' /\
  Op.length op' = Some 0 /\
  Scenario.state_after r
  = Some (DocumentManager.mkState (str "abgh") 2
            [Scenario.delete "op1" "alice" 0 2 4; op'] 0 2) /\
  snd r = [("c2", ACK_OP "op2" 2); ("c1", BROADCAST_OP op')].
Proof. repeat split; vm_compute; reflexivity. Qed.

(** C7, as the code has it.  When [applyOperation] fails, the only frame
    sent is the [ERROR] to the originator.  When the failure is one the
    authority raises itself ("Document not found", "Invalid operation"), it
    comes before any write: the store is untouched, a document already in the
    registry leaves the manager exactly as it was, and in every case the state
    of the document as [loadDocument] hands it out is the same before and
    after. *)
Theorem authority_errors_reach_originator_only cm clientId client d op now e dm' :
  get (clients cm) clientId = Some client -> joined client = Some d ->
  DocumentManager.applyOperation d op now (documentManager cm) = (Throw e, dm') ->
  let r := handleMessage cm clientId (APPLY_OP op) now in
  documentManager (fst r) = dm' /\
  (forall k m, In (k, m) (snd r) -> k = clientId /\ m = ERROR (exn_message e)) /\
  (forall msg, e = Error msg ->
     DocumentManager.model dm' = DocumentManager.model (documentManager cm) /\
     fst (DocumentManager.loadDocument d now dm')
     = fst (DocumentManager.loadDocument d now (documentManager cm)) /\
     (forall st, DocumentManager.documents (documentManager cm) !! d = Some st ->
                 dm' = documentManager cm)).
Proof.
  intros Hg Hj Ha r. subst r.
  rewrite (handleMessage_APPLY_OP _ _ _ _ _ _ Hg Hj), Ha. simpl.
  split; [reflexivity|]. split.
  - intros k m H. apply sendToClient_In in H. exact H.
  - intros msg ->. apply applyOperation_Error in Ha as [-> _].
    split; [apply loadDocument_model|]. split; [apply loadDocument_again|].
    intros st Hd. rewrite (loadDocument_loaded _ _ _ _ Hd). reflexivity.
Qed.

Lemma authority_errors_reach_originator_only_witness :
  let st := DocumentManager.mkState (str "abcdefgh") 0 [] 0 0 in
  let cm := Scenario.editing st None in
  let op := Scenario.insert "op1" "alice" 0 100 "!" in
  let r := handleMessage cm "c1" (APPLY_OP op) 0 in
  OTEngine.validate (DocumentManager.content st) op = false /\
  snd r = [("c1", ERROR "Invalid operation")] /\
  snd (DocumentManager.applyOperation "d1" op 0 (documentManager cm)) = documentManager cm.
Proof.
  intros st cm op r.
  do 2 (split; [vm_compute; reflexivity|]).
  exact (proj2 (proj2 (proj2 (proj2
           (authority_errors_reach_originator_only
              cm "c1" (mkClient OPEN "alice" (Some "d1")) "d1" op 0
              (Error "Invalid operation")
              (snd (DocumentManager.applyOperation "d1" op 0 (documentManager cm)))
              eq_refl eq_refl eq_refl))
           "Invalid operation" eq_refl)) st eq_refl).
Defined.

(** C7 as stated fails when the error is the rejection of the write-back:
    the twentieth operation since the last save is applied, then the store
    refuses the save; alice is sent the [ERROR], and the document has
    changed. *)
Lemma write_back_failure_leaves_op_applied :
  let st := DocumentManager.mkState (str "abcdefgh") 19 [] 0 19 in
  let cm := Scenario.editing st (Some "connection lost") in
  let op := Scenario.insert "op1" "alice" 19 8 "!" in
  let r := handleMessage cm "c1" (APPLY_OP op) 0 in
  DocumentManager.applyOperation "d1" op 0 (documentManager cm)
  = (Throw (StoreFailure "connection lost"), documentManager (fst r)) /\
  snd r = [("c1", ERROR "connection lost")] /\
  Scenario.state_after (cm, []) = Some st /\
  Scenario.state_after r
  = Some (DocumentManager.mkState (str "abcdefgh!") 20 [op] 0 20).
Proof. repeat split; vm_compute; reflexivity. Qed.

End RouterClaims.

(** * Further properties of the code *)

(** ** The engine *)

Section EngineMore.

Import OTEngine.

Ltac valid_facts :=
  repeat match goal with
         | Hv : validate ?s ?o = true, Ht : Op.type ?o = "insert" |- _ =>
             let t := fresh "t" in let Ht' := fresh "Htext" in
             destruct (validate_insert s o Ht Hv) as (? & t & Ht' & ?); clear Hv
         | Hv : validate ?s ?o = true, Ht : Op.type ?o = "delete" |- _ =>
             destruct (validate_delete s o Ht Hv) as (? & ? & ?); clear Hv
         end.

Ltac compare_all :=
  repeat match goal with
         | |- context [Z.leb ?x ?y] => destruct (Z.leb_spec x y); simpl
         | |- context [Z.ltb ?x ?y] => destruct (Z.ltb_spec x y); simpl
         end.

Lemma apply_length (s : list ascii) (op : Operation) :
  validate s op = true ->
  Z.of_nat (length (apply s op))
  = if String.eqb (Op.type op) "insert"
    then Z.of_nat (length s) + text_length op
    else Z.of_nat (length s) - length_or_0 op.
Proof.
  intros Hv. destruct (validate_type s op Hv) as [Ht|Ht].
  - valid_facts. rewrite apply_insert by (auto; lia). rewrite Ht. simpl.
    unfold text_or_empty, text_length. rewrite Htext.
    rewrite !length_app, length_firstn, length_skipn. lia.
  - valid_facts. rewrite apply_delete by (auto; lia). rewrite Ht. simpl.
    rewrite !length_app, length_firstn, length_skipn. lia.
Qed.

(** X1. A valid operation changes the length of the content by exactly
    its payload: an insert adds the length of its text, a delete removes
    [length] characters. *)
Theorem apply_valid_length (s : list ascii) (op : Operation) :
  validate s op = true ->
  Z.of_nat (length (apply s op))
  = if String.eqb (Op.type op) "insert"
    then Z.of_nat (length s) + text_length op
    else Z.of_nat (length s) - length_or_0 op.
Proof. apply apply_length. Qed.

Lemma apply_valid_length_witness :
  let s := str "Hello Beautiful World" in
  let op := EngineTest.delete "1" "user1" 5 10 in
  validate s op = true /\ Z.of_nat (length (apply s op)) = 21 - 10.
Proof.
  intros s op. split; [reflexivity|].
  exact (apply_valid_length s op eq_refl).
Defined.

Lemma validate_insert_intro s o t :
  Op.type o = "insert" -> 0 <= Op.position o <= Z.of_nat (length s) ->
  Op.text o = Some t -> (0 < length t)%nat -> validate s o = true.
Proof.
  intros Ht Hp Hx Hl. unfold validate. rewrite Ht, Hx. simpl.
  destruct (Z.ltb_spec (Op.position o) 0); [lia|].
  destruct (Z.ltb_spec (Z.of_nat (length s)) (Op.position o)); [lia|]. simpl.
  destruct (Nat.eqb_spec (length t) 0); [lia|]. simpl. apply Z.ltb_lt. lia.
Qed.

Lemma validate_delete_intro s o :
  Op.type o = "delete" -> 0 <= Op.position o -> 0 < length_or_0 o ->
  Op.position o + length_or_0 o <= Z.of_nat (length s) -> validate s o = true.
Proof.
  intros Ht Hp Hl He. unfold validate. rewrite Ht. simpl.
  destruct (Z.ltb_spec (Op.position o) 0); [lia|].
  destruct (Z.ltb_spec (Z.of_nat (length s)) (Op.position o)); [lia|]. simpl.
  apply andb_true_intro. split; [apply Z.ltb_lt | apply Z.leb_le]; lia.
Qed.

(** X2. The server's step is sound for one concurrent operation: when [a]
    and [b] are both valid on [s] and [b] has been applied, [a] transformed
    against [b] is valid on the new content, unless [a] and [b] are deletes
    and the transform has emptied [a] (its length is then 0). *)
Theorem transform_stays_valid (s : list ascii) (a b : Operation) :
  validate s a = true -> validate s b = true ->
  validate (apply s b) (transform a b) = true
  \/ (Op.type a = "delete" /\ Op.type b = "delete" /\
      Op.length (transform a b) = Some 0).
Proof.
  intros Va Vb.
  pose proof (apply_length s b Vb) as Hlen.
  destruct (validate_type s a Va) as [Ta|Ta], (validate_type s b Vb) as [Tb|Tb];
    rewrite Tb in Hlen; simpl in Hlen; valid_facts;
    revert Hlen; generalize (apply s b); intros s' Hlen.
  - left. unfold text_length in *. rewrite Htext in *.
    destruct a as [ia da ua va ta pa xa la], b as [ib db ub vb tb pb xb lb].
    simpl in *. subst. unfold transform, text_length. simpl.
    compare_all; eapply validate_insert_intro; simpl; eauto; lia.
  - left.
    destruct a as [ia da ua va ta pa xa la], b as [ib db ub vb tb pb xb [lb|]];
      unfold length_or_0 in *; simpl in *; try lia. subst.
    unfold transform, length_or_0. simpl.
    compare_all; eapply validate_insert_intro; simpl; eauto; lia.
  - left. unfold text_length in *. rewrite Htext in *.
    destruct a as [ia da ua va ta pa xa [la|]], b as [ib db ub vb tb pb xb lb];
      unfold length_or_0 in *; simpl in *; try lia. subst.
    unfold transform, text_length. simpl.
    compare_all; apply validate_delete_intro; unfold length_or_0; simpl; auto; lia.
  - destruct a as [ia da ua va ta pa xa [la|]], b as [ib db ub vb tb pb xb [lb|]];
      unfold length_or_0 in *; simpl in *; try lia. subst.
    unfold transform, length_or_0. simpl.
    compare_all; try lia;
      first [ right; repeat split; reflexivity
            | left; apply validate_delete_intro; unfold length_or_0; simpl; auto; lia ].
Qed.

Lemma transform_stays_valid_witness :
  let s := str "abcdefgh" in
  let a := EngineTest.insert "2" "user2" 8 "!" in
  let b := EngineTest.delete "1" "user1" 0 4 in
  validate s a = true /\ validate s b = true /\
  validate (apply s b) a = false /\
  (validate (apply s b) (transform a b) = true
   \/ (Op.type a = "delete" /\ Op.type b = "delete" /\
       Op.length (transform a b) = Some 0)).
Proof.
  intros s a b. do 3 (split; [reflexivity|]).
  exact (transform_stays_valid s a b eq_refl eq_refl).
Defined.

(** X3. Transforming against an operation that changes nothing (a delete
    of length 0, as the transform itself can produce and the authority keeps
    in its tail, or an insert without text) leaves a valid operation exactly
    as it is. *)
Theorem transform_against_empty (s : list ascii) (op other : Operation) :
  validate s op = true ->
  (Op.type other = "delete" /\ length_or_0 other = 0)
  \/ (Op.type other = "insert" /\ text_length other = 0) ->
  transform op other = op.
Proof.
  intros Vo He.
  destruct (validate_type s op Vo) as [To|To]; valid_facts.
  - destruct op as [io do uo vo to po xo lo], other as [i d u v ty p x l].
    simpl in *. subst.
    destruct He as [[-> He]|[-> He]]; unfold transform; simpl; rewrite He;
      compare_all; unfold Op.set_position; simpl; f_equal; lia.
  - destruct op as [io do uo vo to po xo [lo|]], other as [i d u v ty p x l];
      unfold length_or_0 in H0, H1; simpl in *; try lia. subst.
    destruct He as [[-> He]|[-> He]]; unfold transform; simpl; rewrite He;
      compare_all;
      unfold Op.set_position, Op.set_length, length_or_0 in *; simpl in *;
      try lia; repeat (f_equal; try lia).
Qed.

Lemma transform_against_empty_witness :
  let s := str "abgh" in
  let op := EngineTest.delete "3" "user3" 1 2 in
  let other := EngineTest.delete "2" "user2" 2 0 in
  validate s op = true /\ transform op other = op.
Proof.
  intros s op other. split; [reflexivity|].
  apply (transform_against_empty s op other eq_refl). left. split; reflexivity.
Defined.

(** X4. A delete at the position of a valid insert, as long as the inserted
    text, undoes it. *)
Theorem delete_undoes_insert (s : list ascii) (ins del : Operation) :
  validate s ins = true -> Op.type ins = "insert" ->
  Op.type del = "delete" ->
  Op.position del = Op.position ins ->
  length_or_0 del = text_length ins ->
  apply (apply s ins) del = s.
Proof.
  intros Vi Ti Td Hp Hl. valid_facts.
  unfold text_length in Hl. rewrite Htext in Hl.
  rewrite (apply_delete _ del), (apply_insert _ ins); auto; try lia.
  unfold text_or_empty. rewrite Htext, Hp, Hl.
  list_ext.
Qed.

Lemma delete_undoes_insert_witness :
  let s := str "Hello World" in
  let ins := EngineTest.insert "1" "user1" 5 " Beautiful" in
  let del := EngineTest.delete "2" "user1" 5 10 in
  apply s ins = str "Hello Beautiful World" /\ apply (apply s ins) del = s.
Proof.
  intros s ins del. split; [reflexivity|].
  exact (delete_undoes_insert s ins del eq_refl eq_refl eq_refl eq_refl eq_refl).
Defined.

End EngineMore.

(** ** The editor's own application of operations *)

Section ClientApply.

Import OTEngine.

Lemma remoteContent_apply content op :
  UseWebSocket.remoteContent content op = apply content op.
Proof.
  destruct op as [i d u v ty p x l].
  unfold UseWebSocket.remoteContent, apply,
    UseWebSocket.truthy_text, UseWebSocket.truthy_length, text_or_empty, length_or_0.
  simpl.
  destruct (String.eqb_spec ty "insert") as [->|Hi]; simpl.
  - destruct x as [[|c x]|]; simpl; try reflexivity; rewrite slice_cut; reflexivity.
  - destruct (String.eqb_spec ty "delete") as [->|Hd]; simpl; [|reflexivity].
    destruct l as [l|]; simpl.
    + destruct (Z.eqb_spec l 0) as [->|Hl]; simpl; [|reflexivity].
      rewrite Z.add_0_r, slice_cut. reflexivity.
    + rewrite Z.add_0_r, slice_cut. reflexivity.
Qed.

Lemma handleOperation_content op st :
  EditorStore.content (fst (EditorPage.handleOperation op st))
  = apply (EditorStore.content st) op.
Proof. unfold EditorPage.handleOperation. simpl. apply remoteContent_apply. Qed.

(** X5. The editor carries out an operation exactly as the engine does:
    the content [applyRemoteOp] and [handleOperation] compute, with their
    guards on [op.text] and [op.length], is [OTEngine.apply] of the content,
    for every operation. *)
Theorem editor_applies_like_engine (op : Operation) (st : EditorStore.EditorState) :
  EditorStore.content (UseWebSocket.applyRemoteOp op st)
  = apply (EditorStore.content st) op /\
  EditorStore.content (fst (EditorPage.handleOperation op st))
  = apply (EditorStore.content st) op.
Proof.
  split; [apply remoteContent_apply | apply handleOperation_content].
Qed.

End ClientApply.

(** ** The editor component *)

Section Editor.

Import OTEngine.

(** [s.slice(a, b)] for [0 <= a <= b]. *)
Lemma slice_range s a b :
  0 <= a <= b ->
  slice s a (Some b) = firstn (Z.to_nat (b - a)) (skipn (Z.to_nat a) s).
Proof.
  intros H. unfold slice. rewrite !slice_index_nonneg by lia.
  destruct (Z.le_gt_cases a (Z.of_nat (length s))).
  - replace (Z.to_nat (Z.min a (Z.of_nat (length s)))) with (Z.to_nat a) by lia.
    destruct (Z.le_gt_cases b (Z.of_nat (length s))).
    + f_equal. lia.
    + rewrite !firstn_all2; [reflexivity| |]; rewrite length_skipn; lia.
  - rewrite !skipn_all2 by lia. rewrite !firstn_nil. reflexivity.
Qed.

(** X6. [handleChange] recovers the edit.  When the new content of the
    text area is the old one changed by a valid insert or delete [e], and the
    cursor stands where the browser leaves it (behind the inserted text, or
    at the start of the deleted range), the operation given to [onOperation]
    has the identifiers and base version it was given, is valid on the old
    content, has the type, position and payload of [e], and turns the old
    content into the new one. *)
Theorem handleChange_recovers_edit
    (oldContent : list ascii) (e : Operation) (opId docId userId : string)
    (serverVersion : Z) :
  validate oldContent e = true ->
  let cursorPos := if String.eqb (Op.type e) "insert"
                   then Op.position e + text_length e
                   else Op.position e in
  exists op,
    CodeEditor.handleChange oldContent (apply oldContent e) cursorPos
      opId docId userId serverVersion = Some op /\
    Op.opId op = opId /\ Op.docId op = docId /\ Op.userId op = userId /\
    Op.baseVersion op = serverVersion /\
    Op.type op = Op.type e /\ Op.position op = Op.position e /\
    text_or_empty op = (if String.eqb (Op.type e) "insert" then text_or_empty e else []) /\
    length_or_0 op = (if String.eqb (Op.type e) "insert" then 0 else length_or_0 e) /\
    validate oldContent op = true /\
    apply oldContent op = apply oldContent e.
Proof.
  intros Hv cursorPos. subst cursorPos.
  pose proof (apply_length oldContent e Hv) as Hlen.
  destruct (validate_type oldContent e Hv) as [Ht|Ht]; rewrite Ht in *; simpl in *.
  - destruct (validate_insert _ _ Ht Hv) as (Hp & t & Htext & Hl).
    unfold text_length in *. rewrite Htext in *.
    unfold CodeEditor.handleChange. rewrite Hlen.
    destruct (Z.ltb_spec (Z.of_nat (length oldContent))
                (Z.of_nat (length oldContent) + Z.of_nat (length t))); [|lia].
    assert (Hins : slice (apply oldContent e)
                     (Op.position e + Z.of_nat (length t)
                      - (Z.of_nat (length oldContent) + Z.of_nat (length t)
                         - Z.of_nat (length oldContent)))
                     (Some (Op.position e + Z.of_nat (length t))) = t).
    { rewrite slice_range by lia. rewrite apply_insert by (auto; lia).
      unfold text_or_empty. rewrite Htext. list_ext. }
    rewrite Hins.
    replace (Op.position e + Z.of_nat (length t) - Z.of_nat (length t))
      with (Op.position e) by lia.
    eexists. split; [reflexivity|]. simpl.
    unfold text_or_empty at 1. unfold text_or_empty at 1. rewrite Htext. simpl.
    repeat split; auto.
    + eapply validate_insert_intro; simpl; eauto.
    + rewrite !apply_insert by (simpl; auto; lia). unfold text_or_empty.
      rewrite Htext. reflexivity.
  - destruct (validate_delete _ _ Ht Hv) as (Hp & Hl & He).
    unfold CodeEditor.handleChange. rewrite Hlen.
    destruct (Z.ltb_spec (Z.of_nat (length oldContent))
                (Z.of_nat (length oldContent) - length_or_0 e)); [lia|].
    destruct (Z.ltb_spec (Z.of_nat (length oldContent) - length_or_0 e)
                (Z.of_nat (length oldContent))); [|lia].
    replace (Z.of_nat (length oldContent)
             - (Z.of_nat (length oldContent) - length_or_0 e))
      with (length_or_0 e) by lia.
    eexists. split; [reflexivity|]. simpl.
    repeat split; auto.
    + apply validate_delete_intro; simpl; auto.
    + rewrite (apply_delete _ e) by (auto; lia).
      rewrite apply_delete; [reflexivity| | |]; cbn; auto; lia.
Qed.

Lemma handleChange_recovers_edit_witness :
  let old := str "Hello World" in
  let e := EngineTest.insert "typed" "user1" 5 " Beautiful" in
  validate old e = true /\
  exists op,
    CodeEditor.handleChange old (str "Hello Beautiful World") 15 "op1" "d1" "alice" 3
    = Some op /\
    Op.position op = 5 /\ apply old op = str "Hello Beautiful World".
Proof.
  intros old e. split; [reflexivity|].
  destruct (handleChange_recovers_edit old e "op1" "d1" "alice" 3 eq_refl)
    as (op & H & _ & _ & _ & _ & _ & Hp & _ & _ & _ & Ha).
  exists op. split; [exact H|]. split; [exact Hp|exact Ha].
Defined.

End Editor.

(** ** The document manager *)

Section ManagerMore.

Import DocumentManager.

(** X7. [applyOperation] on one document leaves every other document
    alone, in the registry and in the store, whatever the outcome. *)
Theorem applyOperation_frame docId op now dm other :
  other <> docId ->
  let dm' := snd (applyOperation docId op now dm) in
  documents dm' !! other = documents dm !! other /\
  DocumentModel.records (model dm') !! other = DocumentModel.records (model dm) !! other /\
  DocumentModel.outage (model dm') = DocumentModel.outage (model dm).
Proof.
  intros Hne dm'. subst dm'.
  destruct (loadDocument docId now dm) as [[st|e] dm1] eqn:Hl.
  - rewrite (applyOperation_after_load _ _ _ _ _ _ Hl).
    destruct (loadDocument_cases _ _ _ _ _ Hl)
      as [(st' & [= <-] & Hd & Hm & Hc)|(_ & _ & [H|(m & _ & H)])]; try discriminate.
    assert (H1 : documents dm1 !! other = documents dm !! other).
    { destruct Hc as [->|(_ & _ & -> & _)]; [reflexivity|].
      simpl. apply lookup_insert_ne. congruence. }
    rewrite <- H1, <- Hm.
    destruct (OTEngine.validate (content st) op) eqn:Hv.
    + rewrite (applyOperation_valid _ _ _ _ _ Hd Hv).
      destruct ((SAVE_INTERVAL <=? now - lastSaveTime st)
                || (SAVE_OP_THRESHOLD <=? opsSinceLastSave st + 1)).
      * unfold DocumentModel.findByIdAndUpdate.
        destruct (DocumentModel.outage (model dm1)) eqn:Ho; simpl.
        -- rewrite lookup_insert_ne by congruence. auto.
        -- rewrite !lookup_insert_ne by congruence.
           destruct (DocumentModel.records (model dm1) !! docId); simpl;
             rewrite ?lookup_insert_ne by congruence; auto.
      * simpl. rewrite lookup_insert_ne by congruence. auto.
    + rewrite (applyOperation_invalid _ _ _ _ _ Hd Hv). auto.
  - rewrite (applyOperation_load_fails _ _ _ _ _ _ Hl). simpl.
    destruct (loadDocument_cases _ _ _ _ _ Hl) as [(st' & H & _)|(-> & _)];
      [discriminate|auto].
Qed.

Lemma applyOperation_frame_witness :
  let st := mkState (str "abcdefgh") 0 [] 0 0 in
  let other := mkState (str "xyz") 7 [] 0 3 in
  let dm := mk (<["d2" := other]> {["d1" := st]}) (Scenario.store None) in
  let op := Scenario.insert "op1" "alice" 0 8 "!" in
  content <$> documents (snd (applyOperation "d1" op 0 dm)) !! "d1"
  = Some (str "abcdefgh!") /\
  documents (snd (applyOperation "d1" op 0 dm)) !! "d2" = Some other.
Proof.
  intros st other dm op. split; [vm_compute; reflexivity|].
  rewrite (proj1 (applyOperation_frame "d1" op 0 dm "d2" ltac:(discriminate))).
  vm_compute; reflexivity.
Defined.

Lemma slice_last_length {A} n (l : list A) : (length (slice_last n l) <= n)%nat.
Proof. unfold slice_last. rewrite length_skipn. lia. Qed.

(** X8. The tail stays bounded.  While the store is reachable, a document
    with fewer than 20 operations since its last save and at most
    [10 + opsSinceLastSave] retained operations is again so after
    [applyOperation], whatever the operation and the outcome; its tail
    therefore never holds more than 29 operations. *)
Theorem applyOperation_keeps_tail_bounded docId op now dm st :
  documents dm !! docId = Some st ->
  DocumentModel.outage (model dm) = None ->
  0 <= opsSinceLastSave st < SAVE_OP_THRESHOLD ->
  (Z.of_nat (length (pendingOps st)) <= 10 + opsSinceLastSave st) ->
  exists st',
    documents (snd (applyOperation docId op now dm)) !! docId = Some st' /\
    0 <= opsSinceLastSave st' < SAVE_OP_THRESHOLD /\
    Z.of_nat (length (pendingOps st')) <= 10 + opsSinceLastSave st' /\
    (length (pendingOps st') <= 29)%nat.
Proof.
  intros Hd Ho Hops Hlen.
  destruct (OTEngine.validate (content st) op) eqn:Hv.
  - rewrite (applyOperation_valid _ _ _ _ _ Hd Hv), Ho.
    pose proof (slice_last_length 10 (pendingOps st ++ [transformPending st op])) as Hs.
    destruct ((SAVE_INTERVAL <=? now - lastSaveTime st)
              || (SAVE_OP_THRESHOLD <=? opsSinceLastSave st + 1)) eqn:Hdue;
      cbn [snd documents]; rewrite lookup_insert_eq; eexists; (split; [reflexivity|]);
      cbn [opsSinceLastSave pendingOps]; unfold SAVE_OP_THRESHOLD in *.
    + lia.
    + apply orb_false_iff in Hdue as [_ Hdue]. apply Z.leb_gt in Hdue.
      rewrite length_app. simpl. lia.
  - rewrite (applyOperation_invalid _ _ _ _ _ Hd Hv). simpl.
    exists st. split; [exact Hd|]. unfold SAVE_OP_THRESHOLD in *. lia.
Qed.

Lemma applyOperation_keeps_tail_bounded_witness :
  let st := mkState (str "zzzzzzzzzzabcdefgh") 100 Scenario.tail 0 19 in
  let dm := Scenario.authority st None in
  let op := Scenario.insert "op2" "bob" 100 0 "Y" in
  exists st',
    documents (snd (applyOperation "d1" op 0 dm)) !! "d1" = Some st' /\
    0 <= opsSinceLastSave st' < SAVE_OP_THRESHOLD /\
    Z.of_nat (length (pendingOps st')) <= 10 + opsSinceLastSave st' /\
    (length (pendingOps st') <= 29)%nat.
Proof.
  intros st dm op.
  apply (applyOperation_keeps_tail_bounded "d1" op 0 dm st eq_refl eq_refl).
  - vm_compute. split; congruence.
  - vm_compute. congruence.
Defined.

(** X9. The write-back.  When an operation is applied to a document whose
    record is in a reachable store, and either 2000 ms have passed since the
    last save or this is the twentieth operation since, the store then holds
    the content and the version of the registry, the counter is back to 0 and
    the save time is [now].  Otherwise the store is not touched and the
    counter has advanced by one. *)
Theorem applyOperation_write_back docId op now dm st doc :
  documents dm !! docId = Some st ->
  OTEngine.validate (content st) op = true ->
  DocumentModel.outage (model dm) = None ->
  DocumentModel.records (model dm) !! docId = Some doc ->
  let dm' := snd (applyOperation docId op now dm) in
  exists st',
    documents dm' !! docId = Some st' /\
    version st' = version st + 1 /\
    if (SAVE_INTERVAL <=? now - lastSaveTime st)
       || (SAVE_OP_THRESHOLD <=? opsSinceLastSave st + 1)
    then DocumentModel.records (model dm') !! docId
         = Some (DocumentModel.mkDocument (content st') (version st') now) /\
         opsSinceLastSave st' = 0 /\ lastSaveTime st' = now
    else model dm' = model dm /\
         opsSinceLastSave st' = opsSinceLastSave st + 1 /\
         lastSaveTime st' = lastSaveTime st.
Proof.
  intros Hd Hv Ho Hr dm'. subst dm'.
  rewrite (applyOperation_valid _ _ _ _ _ Hd Hv), Ho.
  destruct ((SAVE_INTERVAL <=? now - lastSaveTime st)
            || (SAVE_OP_THRESHOLD <=? opsSinceLastSave st + 1)); simpl.
  - cbn [snd documents model]. rewrite lookup_insert_eq.
    eexists. split; [reflexivity|]. cbn [version content opsSinceLastSave lastSaveTime].
    split; [reflexivity|].
    unfold DocumentModel.findByIdAndUpdate. rewrite Ho, Hr.
    cbn [snd DocumentModel.records]. rewrite lookup_insert_eq. auto.
  - cbn [snd documents model]. rewrite lookup_insert_eq.
    eexists. split; [reflexivity|]. cbn. auto.
Qed.

Lemma applyOperation_write_back_witness :
  let st := mkState (str "abcdefgh") 0 [] 0 0 in
  let dm := Scenario.authority st None in
  let op := Scenario.insert "op1" "alice" 0 8 "!" in
  DocumentModel.records (model (snd (applyOperation "d1" op 2500 dm))) !! "d1"
  = Some (DocumentModel.mkDocument (str "abcdefgh!") 1 2500) /\
  exists st',
    documents (snd (applyOperation "d1" op 2500 dm)) !! "d1" = Some st' /\
    version st' = version st + 1 /\
    DocumentModel.records (model (snd (applyOperation "d1" op 2500 dm))) !! "d1"
    = Some (DocumentModel.mkDocument (content st') (version st') 2500) /\
    opsSinceLastSave st' = 0 /\ lastSaveTime st' = 2500.
Proof.
  intros st dm op. split; [vm_compute; reflexivity|].
  exact (applyOperation_write_back "d1" op 2500 dm st
           (DocumentModel.mkDocument (str "abcdefgh") 0 0) eq_refl eq_refl eq_refl eq_refl).
Defined.

(** X10. Save and restart.  [persistDocument] on a registered document,
    with the store reachable, succeeds and keeps the content and the version
    in the registry, with at most the last ten operations.  If the store has
    the record, a manager started afterwards with an empty registry serves
    that content and version; if it has not (the update does not upsert),
    the store is left as it was and that manager answers "Document not
    found". *)
Theorem persistDocument_then_restart docId now now' dm st :
  documents dm !! docId = Some st ->
  DocumentModel.outage (model dm) = None ->
  let r := persistDocument docId now dm in
  fst r = Ok tt /\
  documents (snd r) !! docId
  = Some (mkState (content st) (version st) (slice_last 10 (pendingOps st)) now 0) /\
  match DocumentModel.records (model dm) !! docId with
  | Some _ =>
      fst (getDocument docId now' (mk ∅ (model (snd r))))
      = Ok (content st, version st)
  | None =>
      model (snd r) = model dm /\
      fst (getDocument docId now' (mk ∅ (model (snd r))))
      = Throw (Error "Document not found")
  end.
Proof.
  intros Hd Ho r. subst r.
  unfold persistDocument, bind, getState, findByIdAndUpdate, setState,
    DocumentModel.findByIdAndUpdate.
  rewrite Hd, Ho.
  destruct (DocumentModel.records (model dm) !! docId) as [doc|] eqn:Hr;
    cbn [fst snd documents model]; rewrite lookup_insert_eq;
    (split; [reflexivity|]); (split; [reflexivity|]).
  - unfold getDocument, loadDocument, bind, getState, findById, DocumentModel.findById,
      setState, ret.
    cbn [documents model DocumentModel.outage DocumentModel.records].
    rewrite lookup_empty.
    cbn [documents model DocumentModel.outage DocumentModel.records].
    rewrite lookup_insert_eq. reflexivity.
  - split; [reflexivity|].
    unfold getDocument, loadDocument, bind, getState, findById, DocumentModel.findById,
      throw.
    cbn [documents model]. rewrite lookup_empty, ?Ho.
    cbn [documents model]. rewrite ?Ho, Hr. reflexivity.
Qed.

Lemma persistDocument_then_restart_witness :
  let st := mkState (str "abcdefgh!") 1 [Scenario.insert "op1" "alice" 0 8 "!"] 0 1 in
  let dm := Scenario.authority st None in
  fst (getDocument "d1" 0 (Scenario.authority st None)) = Ok (str "abcdefgh!", 1) /\
  fst (getDocument "d1" 9 (mk ∅ (model dm))) = Ok (str "abcdefgh", 0) /\
  fst (getDocument "d1" 9 (mk ∅ (model (snd (persistDocument "d1" 5 dm)))))
  = Ok (str "abcdefgh!", 1).
Proof.
  intros st dm. do 2 (split; [vm_compute; reflexivity|]).
  exact (proj2 (proj2 (persistDocument_then_restart "d1" 5 9 dm st eq_refl eq_refl))).
Defined.

(** X11. Reads follow writes.  After a successful [applyOperation], and
    whether or not anything was saved, [getDocument] answers from the
    registry: it gives the version that was returned to the client, and the
    content the returned operation produced from the content
    [loadDocument] had handed out. *)
Theorem getDocument_after_applyOperation docId op now now' dm r dm' :
  applyOperation docId op now dm = (Ok r, dm') ->
  exists st,
    fst (loadDocument docId now dm) = Ok st /\
    getDocument docId now' dm'
    = (Ok (OTEngine.apply (content st) (transformedOp r), newVersion r), dm').
Proof.
  intros Ha.
  destruct (applyOperation_ok _ _ _ _ _ _ Ha) as (st & dm1 & Hl & Hv & ->).
  exists st. rewrite Hl. split; [reflexivity|].
  rewrite (applyOperation_after_load _ _ _ _ _ _ Hl) in Ha.
  destruct (loadDocument_cases _ _ _ _ _ Hl)
    as [(st' & [= <-] & Hd & _)|(_ & _ & [H|(m & _ & H)])]; try discriminate.
  rewrite (applyOperation_valid _ _ _ _ _ Hd Hv) in Ha.
  assert (Hget : forall st2, documents dm' !! docId = Some st2 ->
            getDocument docId now' dm' = (Ok (content st2, version st2), dm')).
  { intros st2 H2. unfold getDocument, bind.
    rewrite (loadDocument_loaded _ _ _ _ H2). reflexivity. }
  destruct ((SAVE_INTERVAL <=? now - lastSaveTime st)
            || (SAVE_OP_THRESHOLD <=? opsSinceLastSave st + 1)).
  - destruct (DocumentModel.outage (model dm1)); [discriminate|].
    injection Ha as <-.
    rewrite (Hget _ ltac:(cbn [documents]; apply lookup_insert_eq)). reflexivity.
  - injection Ha as <-.
    rewrite (Hget _ ltac:(cbn [documents]; apply lookup_insert_eq)). reflexivity.
Qed.

Lemma getDocument_after_applyOperation_witness :
  let st := mkState (str "abcdefgh") 0 [] 0 0 in
  let dm := Scenario.authority st None in
  let op := Scenario.insert "op1" "alice" 0 8 "!" in
  let dm' := snd (applyOperation "d1" op 0 dm) in
  DocumentModel.records (model dm') !! "d1"
  = Some (DocumentModel.mkDocument (str "abcdefgh") 0 0) /\
  exists st0,
    fst (loadDocument "d1" 0 dm) = Ok st0 /\
    getDocument "d1" 1 dm'
    = (Ok (OTEngine.apply (content st0) op, 1), dm').
Proof.
  intros st dm op dm'. split; [vm_compute; reflexivity|].
  exact (getDocument_after_applyOperation "d1" op 0 1 dm (mkResult 1 op) dm' eq_refl).
Defined.

(** X12. Create, then fetch.  With the store reachable and [newId] free
    in the store and the registry, [createDocument] returns [newId] without
    touching the registry, and [getDocument] then serves the default content
    at version 0. *)
Theorem createDocument_then_getDocument newId now now' dm :
  DocumentModel.outage (model dm) = None ->
  DocumentModel.records (model dm) !! newId = None ->
  documents dm !! newId = None ->
  let r := createDocument newId now dm in
  fst r = Ok newId /\
  documents (snd r) = documents dm /\
  fst (getDocument newId now' (snd r)) = Ok (defaultContent, 0).
Proof.
  intros Ho Hr Hd r. subst r.
  unfold createDocument, DocumentModel.create. rewrite Ho, Hr.
  cbn [fst snd documents]. do 2 (split; [reflexivity|]).
  unfold getDocument, loadDocument, bind, getState, findById, DocumentModel.findById,
    setState, ret.
  cbn [documents model DocumentModel.outage DocumentModel.records].
  rewrite Hd.
  cbn [documents model DocumentModel.outage DocumentModel.records].
  rewrite lookup_insert_eq. reflexivity.
Qed.

Lemma createDocument_then_getDocument_witness :
  let dm := mk ∅ (Scenario.store None) in
  fst (getDocument "d9" 1 dm) = Throw (Error "Document not found") /\
  fst (getDocument "d9" 1 (snd (createDocument "d9" 0 dm))) = Ok (defaultContent, 0).
Proof.
  intros dm. split; [vm_compute; reflexivity|].
  exact (proj2 (proj2 (createDocument_then_getDocument "d9" 0 1 dm eq_refl eq_refl eq_refl))).
Defined.

(** X25. The transform window is chosen by base version.  [applyOperation]
    transforms a stale operation against the retained operations whose
    [baseVersion] is at least its own, not against those applied since: when
    every retained operation was conceived against an older version than
    [op] was, [op] is applied untransformed, however far the document has
    moved on. *)
Theorem transformPending_skips_older_bases st op :
  (forall p, In p (pendingOps st) -> Op.baseVersion p < Op.baseVersion op) ->
  transformPending st op = op.
Proof.
  intros H. unfold transformPending.
  destruct (Op.baseVersion op <? version st); [|reflexivity].
  replace (List.filter (fun pendingOp => Op.baseVersion op <=? Op.baseVersion pendingOp)
             (pendingOps st)) with (@nil Operation); [reflexivity|].
  symmetry. induction (pendingOps st) as [|p l IH]; simpl; [reflexivity|].
  destruct (Z.leb_spec (Op.baseVersion op) (Op.baseVersion p)).
  - specialize (H p (or_introl eq_refl)). lia.
  - apply IH. intros q Hq. apply H. right. exact Hq.
Qed.

Lemma transformPending_skips_older_bases_witness :
  let st := mkState (str "XYtest") 2
              [Scenario.insert "op1" "alice" 0 0 "X";
               Scenario.insert "op2" "bob" 0 1 "Y"] 0 2 in
  let op := Scenario.insert "op3" "carol" 1 5 "!" in
  Op.baseVersion op < version st /\
  transformPending st op = op /\
  content <$> documents (snd (applyOperation "d1" op 0 (Scenario.authority st None))) !! "d1"
  = Some (str "XYtes!t").
Proof.
  intros st op. split; [reflexivity|]. split; [|vm_compute; reflexivity].
  apply (transformPending_skips_older_bases st op).
  intros p [<-|[<-|[]]]; reflexivity.
Defined.

End ManagerMore.

(** ** The presence manager *)

Section PresenceMore.

Import PresenceManager.

Lemma getPresenceKey_inj d d' : getPresenceKey d = getPresenceKey d' -> d = d'.
Proof. unfold getPresenceKey. simpl. intros [= H]. exact H. Qed.

Lemma getCursors_removeUser pm d u : getCursors (removeUser pm d u) d !! u = None.
Proof.
  unfold getCursors, removeUser, hdel. simpl.
  rewrite lookup_insert_eq. simpl. apply lookup_delete_eq.
Qed.

(** X13. Cursors round-trip through the presence hashes.  After
    [updateCursor], [getCursors] of that document gives the new cursor for
    the user and what it gave before for every other user; the cursors of
    every other document are as before; and after [removeUser] the user has
    no cursor in the document. *)
Theorem presence_round_trip pm d u position :
  getCursors (updateCursor pm d u position) d !! u = Some (mkCursor u position) /\
  (forall u', u' <> u ->
     getCursors (updateCursor pm d u position) d !! u' = getCursors pm d !! u') /\
  (forall d', d' <> d ->
     getCursors (updateCursor pm d u position) d' = getCursors pm d') /\
  getCursors (removeUser pm d u) d !! u = None /\
  (forall u', u' <> u ->
     getCursors (removeUser pm d u) d !! u' = getCursors pm d !! u').
Proof.
  unfold getCursors, updateCursor, removeUser, hset, hdel. simpl.
  repeat split.
  - rewrite lookup_insert_eq. simpl. apply lookup_insert_eq.
  - intros u' Hu. rewrite lookup_insert_eq. simpl. apply lookup_insert_ne. congruence.
  - intros d' Hd. rewrite lookup_insert_ne; [reflexivity|].
    intros H. apply getPresenceKey_inj in H. congruence.
  - rewrite lookup_insert_eq. simpl. apply lookup_delete_eq.
  - intros u' Hu. rewrite lookup_insert_eq. simpl. apply lookup_delete_ne. congruence.
Qed.

Lemma presence_round_trip_witness :
  let pm := PresenceManager.addUser (PresenceManager.addUser (mk ∅) "d1" "alice") "d2" "bob" in
  getCursors (updateCursor pm "d1" "alice" 7) "d1" !! "alice" = Some (mkCursor "alice" 7) /\
  getCursors (updateCursor pm "d1" "alice" 7) "d2" = getCursors pm "d2" /\
  getCursors pm "d2" !! "bob" = Some (mkCursor "bob" 0).
Proof.
  intros pm. split; [|split; [|vm_compute; reflexivity]].
  - exact (proj1 (presence_round_trip pm "d1" "alice" 7)).
  - exact (proj1 (proj2 (proj2 (presence_round_trip pm "d1" "alice" 7)))
             "d2" ltac:(discriminate)).
Defined.

End PresenceMore.

(** ** The client registry *)

Section Registry.

Import ConnectionManager.

Lemma get_set_eq cs k c : get (set cs k c) k = Some c.
Proof.
  induction cs as [|[k' c'] rest IH]; simpl.
  - rewrite String.eqb_refl. reflexivity.
  - destruct (String.eqb_spec k' k) as [->|Hne]; simpl.
    + rewrite String.eqb_refl. reflexivity.
    + destruct (String.eqb_spec k' k); [contradiction|]. exact IH.
Qed.

Lemma get_set_ne cs k c k' : k' <> k -> get (set cs k c) k' = get cs k'.
Proof.
  intros Hne. induction cs as [|[k0 c0] rest IH]; simpl.
  - destruct (String.eqb_spec k k'); [congruence|reflexivity].
  - destruct (String.eqb_spec k0 k) as [->|H0]; simpl.
    + destruct (String.eqb_spec k k'); [congruence|reflexivity].
    + destruct (String.eqb_spec k0 k'); [reflexivity|exact IH].
Qed.



(** Replacing the client of an existing key keeps the keys in their
    order. *)
Lemma set_keys cs k c c0 :
  get cs k = Some c0 -> map fst (set cs k c) = map fst cs.
Proof.
  induction cs as [|[k' c'] rest IH]; simpl; [discriminate|].
  destruct (String.eqb_spec k' k) as [->|Hne]; simpl; [reflexivity|].
  intros H. f_equal. apply IH, H.
Qed.

Lemma In_set cs k c k' c' :
  In (k', c') cs -> k' <> k -> In (k', c') (set cs k c).
Proof.
  intros Hin Hne. induction cs as [|[k0 c0] rest IH]; simpl in *; [contradiction|].
  destruct (String.eqb_spec k0 k) as [->|H0]; simpl.
  - destruct Hin as [[= -> ->]|Hin]; [congruence|]. right. exact Hin.
  - destruct Hin as [H|Hin]; [left; exact H|right; apply IH, Hin].
Qed.

Lemma In_set_inv cs k c k' c' :
  In (k', c') (set cs k c) -> (k' = k /\ c' = c) \/ In (k', c') cs.
Proof.
  induction cs as [|[k0 c0] rest IH]; simpl.
  - intros [[= <- <-]|[]]. auto.
  - destruct (String.eqb_spec k0 k) as [->|H0]; simpl.
    + intros [[= <- <-]|Hin]; auto.
    + intros [H|Hin]; [auto|]. destruct (IH Hin) as [H|H]; auto.
Qed.

(** The registry after [handleMessage]: as before, except that a
    [JOIN_DOCUMENT] rewrites the [docId] of the sender. *)
Lemma handleMessage_clients cm clientId message now :
  clients (fst (handleMessage cm clientId message now)) = clients cm
  \/ exists d client,
       message = JOIN_DOCUMENT d /\ get (clients cm) clientId = Some client /\
       clients (fst (handleMessage cm clientId message now))
       = set (clients cm) clientId (mkClient (ws client) (userId client) (Some d)).
Proof.
  unfold handleMessage.
  destruct (get (clients cm) clientId) as [client|] eqn:Hg; [|left; reflexivity].
  destruct message as [d|op| | |position| | | |]; try (left; reflexivity).
  - right. exists d, client. split; [reflexivity|]. split; [reflexivity|].
    unfold handleJoinDocument. rewrite Hg.
    destruct (joined client);
      destruct (DocumentManager.getDocument d now (documentManager cm)) as [[[c v]|e] dm];
      reflexivity.
  - left. unfold handleApplyOp. rewrite Hg.
    destruct (joined client) as [d|]; [|reflexivity].
    destruct (DocumentManager.applyOperation d op now (documentManager cm)) as [[r|e] dm];
      reflexivity.
  - left. unfold handleCursorUpdate. rewrite Hg.
    destruct (joined client); reflexivity.
Qed.

(** X14. A message changes no session but the sender's.  After
    [handleMessage], the registry has the same session ids in the same order,
    every session has the [userId] and socket it had, and every session other
    than the sender is exactly as it was. *)
Theorem handleMessage_keeps_sessions cm clientId message now :
  let cm' := fst (handleMessage cm clientId message now) in
  map fst (clients cm') = map fst (clients cm) /\
  (forall k, userId <$> get (clients cm') k = userId <$> get (clients cm) k) /\
  (forall k, ws <$> get (clients cm') k = ws <$> get (clients cm) k) /\
  (forall k, k <> clientId -> get (clients cm') k = get (clients cm) k).
Proof.
  intros cm'. subst cm'.
  destruct (handleMessage_clients cm clientId message now) as [->|(d & client & _ & Hg & ->)].
  - auto.
  - split; [eapply set_keys; eauto|].
    assert (Hk : forall k, k <> clientId ->
              get (set (clients cm) clientId (mkClient (ws client) (userId client) (Some d))) k
              = get (clients cm) k) by (intros; apply get_set_ne; auto).
    repeat split; auto; intros k;
      (destruct (String.eqb_spec k clientId) as [->|Hne];
       [rewrite get_set_eq, Hg; reflexivity | rewrite Hk by auto; reflexivity]).
Qed.

Lemma handleMessage_keeps_sessions_witness :
  let cm := Scenario.connected in
  let cm' := fst (handleMessage cm "c1" (JOIN_DOCUMENT "d1") 0) in
  docId <$> get (clients cm') "c1" = Some (Some "d1") /\
  get (clients cm') "c2" = get (clients cm) "c2" /\
  map fst (clients cm') = ["c1"; "c2"].
Proof.
  intros cm cm'. split; [vm_compute; reflexivity|]. split.
  - exact (proj2 (proj2 (proj2 (handleMessage_keeps_sessions cm "c1" (JOIN_DOCUMENT "d1") 0)))
             "c2" ltac:(discriminate)).
  - exact (proj1 (handleMessage_keeps_sessions cm "c1" (JOIN_DOCUMENT "d1") 0)).
Defined.

End Registry.

(** ** The router, message by message *)

Section RouterMore.

Import ConnectionManager.

(** What [handleMessage] does with a [JOIN_DOCUMENT] from a registered
    session. *)
Lemma handleMessage_JOIN_DOCUMENT cm clientId d now client :
  get (clients cm) clientId = Some client ->
  handleMessage cm clientId (JOIN_DOCUMENT d) now =
    let leaving :=
      match joined client with
      | Some d0 => broadcastToDocument cm d0 (USER_LEFT (userId client)) (Some clientId)
      | None => []
      end in
    let pm :=
      PresenceManager.addUser
        match joined client with
        | Some d0 => PresenceManager.removeUser (presenceManager cm) d0 (userId client)
        | None => presenceManager cm
        end d (userId client) in
    let clients' :=
      set (clients cm) clientId (mkClient (ws client) (userId client) (Some d)) in
    match DocumentManager.getDocument d now (documentManager cm) with
    | (Ok (content, version), dm) =>
        let cm' := mk clients' dm pm in
        (cm', leaving
              ++ sendToClient cm' clientId
                   (SYNC_STATE content version (PresenceManager.getCursors pm d))
              ++ broadcastToDocument cm' d (USER_JOINED (userId client)) (Some clientId))
    | (Throw e, dm) =>
        let cm' := mk clients' dm pm in
        (cm', leaving ++ sendToClient cm' clientId (ERROR (exn_message e)))
    end.
Proof.
  intros Hg. unfold handleMessage, handleJoinDocument. rewrite Hg.
  destruct (joined client);
    destruct (DocumentManager.getDocument d now (documentManager cm)) as [[[c v]|e] dm];
    reflexivity.
Qed.

Lemma sendToClient_open_In cm clientId message k m :
  In (k, m) (sendToClient cm clientId message) ->
  exists c, get (clients cm) k = Some c /\ ws c = OPEN.
Proof.
  unfold sendToClient.
  destruct (get (clients cm) clientId) as [c|] eqn:Hg; [|intros []].
  destruct (is_open (ws c)) eqn:Ho; [|intros []].
  intros [[= <- <-]|[]]. exists c. split; [exact Hg|].
  destruct (ws c); try discriminate. reflexivity.
Qed.

(** X15. No frame goes to a closed socket or to an unknown session:
    every frame [handleMessage] sends, for any message, is addressed to a
    session of the registry whose socket is OPEN. *)
Theorem handleMessage_sends_to_open_sockets cm clientId message now k m :
  In (k, m) (snd (handleMessage cm clientId message now)) ->
  exists c, In (k, c) (clients cm) /\ ws c = OPEN.
Proof.
  destruct (get (clients cm) clientId) as [client|] eqn:Hg;
    [|unfold handleMessage; rewrite Hg; intros []].
  assert (Hsend : forall cm' msg,
            (forall c, get (clients cm') clientId = Some c -> ws c = ws client) ->
            In (k, m) (sendToClient cm' clientId msg) ->
            exists c, In (k, c) (clients cm) /\ ws c = OPEN).
  { intros cm' msg Hws H. pose proof (sendToClient_In _ _ _ _ _ H) as [-> _].
    apply sendToClient_open_In in H as (c & Hc & Ho).
    exists client. split; [apply get_In, Hg|]. rewrite <- (Hws c Hc). exact Ho. }
  assert (Hcast : forall cs' dm pm d0 msg ex,
            (forall k' c', In (k', c') cs' ->
               In (k', c') (clients cm) \/ (k' = clientId /\ ws c' = ws client)) ->
            In (k, m) (broadcastToDocument (mk cs' dm pm) d0 msg ex) ->
            exists c, In (k, c) (clients cm) /\ ws c = OPEN).
  { intros cs' dm pm d0 msg ex Hcs H.
    apply broadcastToDocument_In in H as [_ (c & Hin & _ & _ & Ho)].
    destruct (Hcs _ _ Hin) as [H|[-> Hw]].
    - exists c. auto.
    - exists client. split; [apply get_In, Hg|]. congruence. }
  destruct message as [d|op| | |position| | | |];
    try (unfold handleMessage; rewrite Hg; intros []).
  - rewrite (handleMessage_JOIN_DOCUMENT _ _ _ _ _ Hg). cbv zeta.
    assert (Hset : forall k' c',
              In (k', c') (set (clients cm) clientId
                             (mkClient (ws client) (userId client) (Some d))) ->
              In (k', c') (clients cm) \/ (k' = clientId /\ ws c' = ws client)).
    { intros k' c' H. apply In_set_inv in H as [[-> ->]|H]; auto. }
    assert (Hleave : In (k, m)
              match joined client with
              | Some d0 => broadcastToDocument cm d0 (USER_LEFT (userId client)) (Some clientId)
              | None => []
              end -> exists c, In (k, c) (clients cm) /\ ws c = OPEN).
    { destruct (joined client); [|intros []].
      destruct cm as [cs dm0 pm0]. apply Hcast. auto. }
    destruct (DocumentManager.getDocument d now (documentManager cm)) as [[[c v]|e] dm];
      cbn [snd]; rewrite !in_app_iff; intros [H|H]; auto.
    + destruct H as [H|H].
      * eapply Hsend; [|exact H]. cbn [clients]. intros c0.
        rewrite get_set_eq. intros [= <-]. reflexivity.
      * eapply Hcast; [|exact H]. exact Hset.
    + eapply Hsend; [|exact H]. cbn [clients]. intros c0.
      rewrite get_set_eq. intros [= <-]. reflexivity.
  - destruct (joined client) as [d|] eqn:Hj.
    + rewrite (handleMessage_APPLY_OP _ _ _ _ _ _ Hg Hj).
      destruct (DocumentManager.applyOperation d op now (documentManager cm))
        as [[r|e] dm]; cbn [snd].
      * rewrite in_app_iff. intros [H|H].
        -- eapply Hsend; [|exact H]. cbn [clients]. intros c0. rewrite Hg.
           intros [= <-]. reflexivity.
        -- eapply Hcast; [|exact H]. auto.
      * intros H. eapply Hsend; [|exact H]. cbn [clients]. intros c0. rewrite Hg.
        intros [= <-]. reflexivity.
    + rewrite handleMessage_APPLY_OP_idle; [intros []|].
      intros c. rewrite Hg. intros [= <-]. exact Hj.
  - unfold handleMessage, handleCursorUpdate. rewrite Hg.
    destruct (joined client) as [d|]; [|intros []]. cbn [snd].
    intros H. eapply Hcast; [|exact H]. auto.
Qed.

Lemma handleMessage_sends_to_open_sockets_witness :
  let cm := mk [("c1", mkClient OPEN "alice" (Some "d1"));
                ("c2", mkClient CLOSED "bob" (Some "d1"));
                ("c3", mkClient OPEN "carol" (Some "d1"))]
               (Scenario.authority (DocumentManager.mkState (str "abcdefgh") 0 [] 0 0) None)
               (PresenceManager.mk ∅) in
  let op := Scenario.insert "op1" "alice" 0 8 "!" in
  snd (handleMessage cm "c1" (APPLY_OP op) 0)
  = [("c1", ACK_OP "op1" 1); ("c3", BROADCAST_OP op)] /\
  exists c, In ("c3", c) (clients cm) /\ ws c = OPEN.
Proof.
  intros cm op. split; [vm_compute; reflexivity|].
  apply (handleMessage_sends_to_open_sockets cm "c1" (APPLY_OP op) 0 "c3" (BROADCAST_OP op)).
  vm_compute. right. left. reflexivity.
Defined.

(** X16. The frames of an [APPLY_OP] are scoped.  The originator is sent
    an [ACK_OP] for the operation or an [ERROR], and nothing else; every other
    frame is a [BROADCAST_OP] to an open session, other than the originator,
    that is joined to the originator's document. *)
Theorem apply_op_frames_are_scoped cm clientId op now k m :
  In (k, m) (snd (handleMessage cm clientId (APPLY_OP op) now)) ->
  (k = clientId /\
   ((exists v, m = ACK_OP (Op.opId op) v) \/ exists msg, m = ERROR msg))
  \/ (k <> clientId /\ (exists op', m = BROADCAST_OP op') /\
      exists sender d c,
        get (clients cm) clientId = Some sender /\ joined sender = Some d /\
        In (k, c) (clients cm) /\ docId c = Some d /\ ws c = OPEN).
Proof.
  destruct (get (clients cm) clientId) as [client|] eqn:Hg;
    [destruct (joined client) as [d|] eqn:Hj|].
  - rewrite (handleMessage_APPLY_OP _ _ _ _ _ _ Hg Hj).
    destruct (DocumentManager.applyOperation d op now (documentManager cm))
      as [[r|e] dm]; cbn [snd].
    + rewrite in_app_iff. intros [H|H].
      * apply sendToClient_In in H as [-> ->]. left. split; [reflexivity|]. left. eauto.
      * apply broadcastToDocument_In in H as [-> (c & Hin & Hd & He & Ho)].
        right. split; [congruence|]. split; [eauto|].
        exists client, d, c. auto.
    + intros H. apply sendToClient_In in H as [-> ->]. left. split; [reflexivity|].
      right. eauto.
  - rewrite handleMessage_APPLY_OP_idle; [intros []|].
    intros c. rewrite Hg. intros [= <-]. exact Hj.
  - rewrite handleMessage_APPLY_OP_idle; [intros []|].
    intros c. rewrite Hg. discriminate.
Qed.

Lemma apply_op_frames_are_scoped_witness :
  let cm := mk [("c1", mkClient OPEN "alice" (Some "d1"));
                ("c2", mkClient OPEN "bob" (Some "d2"));
                ("c3", mkClient OPEN "carol" (Some "d1"))]
               (Scenario.authority (DocumentManager.mkState (str "abcdefgh") 0 [] 0 0) None)
               (PresenceManager.mk ∅) in
  let op := Scenario.insert "op1" "alice" 0 8 "!" in
  snd (handleMessage cm "c1" (APPLY_OP op) 0)
  = [("c1", ACK_OP "op1" 1); ("c3", BROADCAST_OP op)] /\
  (("c3" = "c1" /\
    ((exists v, BROADCAST_OP op = ACK_OP (Op.opId op) v)
     \/ exists msg, BROADCAST_OP op = ERROR msg))
   \/ ("c3" <> "c1" /\ (exists op', BROADCAST_OP op = BROADCAST_OP op') /\
       exists sender d c,
         get (clients cm) "c1" = Some sender /\ joined sender = Some d /\
         In ("c3", c) (clients cm) /\ docId c = Some d /\ ws c = OPEN)).
Proof.
  intros cm op. split; [vm_compute; reflexivity|].
  apply (apply_op_frames_are_scoped cm "c1" op 0 "c3" (BROADCAST_OP op)).
  vm_compute. right. left. reflexivity.
Defined.

(** X17. A session that has just been added has no document: its edits
    and cursor updates are dropped, with no frame sent and nothing changed,
    until it joins. *)
Theorem new_session_is_ignored_until_join cm clientId socket user op position now :
  let cm' := addClient cm clientId socket user in
  get (clients cm') clientId = Some (mkClient socket user None) /\
  handleMessage cm' clientId (APPLY_OP op) now = (cm', []) /\
  handleMessage cm' clientId (CURSOR_UPDATE position) now = (cm', []).
Proof.
  intros cm'. subst cm'.
  assert (Hg : get (clients (addClient cm clientId socket user)) clientId
               = Some (mkClient socket user None)) by apply get_set_eq.
  split; [exact Hg|]. split.
  - apply handleMessage_APPLY_OP_idle. intros c. rewrite Hg. intros [= <-]. reflexivity.
  - unfold handleMessage, handleCursorUpdate. rewrite Hg. reflexivity.
Qed.



Lemma getCursors_addUser pm d u :
  PresenceManager.getCursors (PresenceManager.addUser pm d u) d !! u = Some (mkCursor u 0).
Proof.
  unfold PresenceManager.getCursors, PresenceManager.addUser, PresenceManager.hset. simpl.
  rewrite lookup_insert_eq. simpl. apply lookup_insert_eq.
Qed.

Lemma getCursors_addUser_other pm d u d' :
  d' <> d ->
  PresenceManager.getCursors (PresenceManager.addUser pm d u) d'
  = PresenceManager.getCursors pm d'.
Proof.
  intros Hd.
  unfold PresenceManager.getCursors, PresenceManager.addUser, PresenceManager.hset. simpl.
  rewrite lookup_insert_ne; [reflexivity|].
  intros H. apply getPresenceKey_inj in H. congruence.
Qed.

(** X19. A successful join.  When [getDocument] answers, the session is
    recorded as joined to the document and its user is listed there with a
    cursor at 0; if its socket is open it is sent [SYNC_STATE] with the
    content, the version and the cursors of the document, itself included;
    every other open session of the document is sent [USER_JOINED]; and if
    it came from another document, its cursor there is gone and the other
    open sessions of that document are sent [USER_LEFT]. *)
Theorem join_document_succeeds cm clientId d now client content version dm :
  get (clients cm) clientId = Some client ->
  DocumentManager.getDocument d now (documentManager cm) = (Ok (content, version), dm) ->
  let r := handleMessage cm clientId (JOIN_DOCUMENT d) now in
  let user := userId client in
  let cursors := PresenceManager.getCursors (presenceManager (fst r)) d in
  get (clients (fst r)) clientId = Some (mkClient (ws client) user (Some d)) /\
  documentManager (fst r) = dm /\
  cursors !! user = Some (mkCursor user 0) /\
  (ws client = OPEN -> In (clientId, SYNC_STATE content version cursors) (snd r)) /\
  (forall k c, In (k, c) (clients cm) -> k <> clientId -> docId c = Some d ->
               ws c = OPEN -> In (k, USER_JOINED user) (snd r)) /\
  (forall d0, joined client = Some d0 -> d0 <> d ->
     PresenceManager.getCursors (presenceManager (fst r)) d0 !! user = None /\
     forall k c, In (k, c) (clients cm) -> k <> clientId -> docId c = Some d0 ->
                 ws c = OPEN -> In (k, USER_LEFT user) (snd r)).
Proof.
  intros Hg Hdoc r user cursors. subst r user cursors.
  rewrite (handleMessage_JOIN_DOCUMENT _ _ _ _ _ Hg), Hdoc. cbv zeta. cbn [fst snd clients
    documentManager presenceManager].
  split; [apply get_set_eq|]. split; [reflexivity|].
  split; [apply getCursors_addUser|]. split; [|split].
  - intros Ho. rewrite !in_app_iff. right. left.
    rewrite (sendToClient_open _ _ _ (mkClient (ws client) (userId client) (Some d)));
      [left; reflexivity| |exact Ho].
    cbn [clients]. apply get_set_eq.
  - intros k c Hin Hk Hd Ho. rewrite !in_app_iff. right. right.
    apply broadcastToDocument_In. split; [reflexivity|]. exists c.
    cbn [clients]. repeat split; auto; [apply In_set; auto|congruence].
  - intros d0 Hj Hne. rewrite Hj. split.
    + rewrite getCursors_addUser_other by auto. apply getCursors_removeUser.
    + intros k c Hin Hk Hd Ho. rewrite !in_app_iff. left.
      apply broadcastToDocument_In. split; [reflexivity|]. exists c.
      repeat split; auto. congruence.
Qed.

Lemma join_document_succeeds_witness :
  let cm := Scenario.connected in
  let r := handleMessage cm "c1" (JOIN_DOCUMENT "d1") 0 in
  snd r = [("c1", SYNC_STATE (str "abcdefgh") 0 {["alice" := mkCursor "alice" 0]})] /\
  get (clients (fst r)) "c1" = Some (mkClient OPEN "alice" (Some "d1")).
Proof.
  intros cm r. split; [vm_compute; reflexivity|].
  exact (proj1 (join_document_succeeds cm "c1" "d1" 0 (mkClient OPEN "alice" None)
                  (str "abcdefgh") 0
                  (snd (DocumentManager.getDocument "d1" 0 (documentManager cm)))
                  eq_refl eq_refl)).
Defined.

(** X20. A failed join still attaches.  [handleJoinDocument] records the
    new [docId] and the presence entry before it asks for the document: when
    [getDocument] throws (the document does not exist, or the store is
    down), the session is nevertheless left joined to that document and
    listed in its presence, it is sent the [ERROR] and no [SYNC_STATE], and
    nobody is sent [USER_JOINED]. *)
Theorem failed_join_still_attaches cm clientId d now client e dm :
  get (clients cm) clientId = Some client ->
  DocumentManager.getDocument d now (documentManager cm) = (Throw e, dm) ->
  let r := handleMessage cm clientId (JOIN_DOCUMENT d) now in
  get (clients (fst r)) clientId = Some (mkClient (ws client) (userId client) (Some d)) /\
  PresenceManager.getCursors (presenceManager (fst r)) d !! userId client
  = Some (mkCursor (userId client) 0) /\
  (ws client = OPEN -> In (clientId, ERROR (exn_message e)) (snd r)) /\
  (forall k m, In (k, m) (snd r) ->
     (k = clientId /\ m = ERROR (exn_message e)) \/ m = USER_LEFT (userId client)).
Proof.
  intros Hg Hdoc r. subst r.
  rewrite (handleMessage_JOIN_DOCUMENT _ _ _ _ _ Hg), Hdoc. cbv zeta. cbn [fst snd clients
    documentManager presenceManager].
  split; [apply get_set_eq|]. split; [apply getCursors_addUser|]. split.
  - intros Ho. rewrite in_app_iff. right.
    rewrite (sendToClient_open _ _ _ (mkClient (ws client) (userId client) (Some d)));
      [left; reflexivity| |exact Ho].
    cbn [clients]. apply get_set_eq.
  - intros k m. rewrite in_app_iff. intros [H|H].
    + right. destruct (joined client); [|destruct H].
      apply broadcastToDocument_In in H as [-> _]. reflexivity.
    + left. apply sendToClient_In in H. exact H.
Qed.

Lemma failed_join_still_attaches_witness :
  let cm := Scenario.connected in
  let r := handleMessage cm "c1" (JOIN_DOCUMENT "nowhere") 0 in
  snd r = [("c1", ERROR "Document not found")] /\
  get (clients (fst r)) "c1" = Some (mkClient OPEN "alice" (Some "nowhere")) /\
  snd (handleMessage (fst r) "c1" (APPLY_OP (Scenario.insert "op1" "alice" 0 0 "x")) 0)
  = [("c1", ERROR "Document not found")].
Proof.
  intros cm r. split; [vm_compute; reflexivity|]. split; [|vm_compute; reflexivity].
  exact (proj1 (failed_join_still_attaches cm "c1" "nowhere" 0 (mkClient OPEN "alice" None)
                  (Error "Document not found") (documentManager cm)
                  eq_refl eq_refl)).
Defined.

End RouterMore.

(** ** Counting the sessions of a document *)

Section Counting.

Import ConnectionManager.

(** X21. [getClientCount] bounds every broadcast: a broadcast to a
    document sends at most as many frames as the document has sessions, and
    exactly that many when nobody is excluded and all their sockets are
    open. *)
Theorem broadcast_reaches_at_most_the_client_count cm d message exclude :
  (length (broadcastToDocument cm d message exclude) <= getClientCount cm d)%nat /\
  ((forall k c, In (k, c) (clients cm) -> docId c = Some d -> ws c = OPEN) ->
   length (broadcastToDocument cm d message None) = getClientCount cm d).
Proof.
  unfold broadcastToDocument, getClientCount, recipient. split.
  - induction (clients cm) as [|[k c] rest IH]; simpl; [lia|].
    destruct (docId c) as [d0|]; simpl; [|exact IH].
    destruct (String.eqb d0 d); simpl; [|exact IH].
    destruct (match exclude with Some x => negb (String.eqb k x) | None => true end);
      simpl; [|lia].
    destruct (is_open (ws c)); simpl; lia.
  - induction (clients cm) as [|[k c] rest IH]; simpl; [reflexivity|].
    intros Hopen.
    assert (IH' := IH (fun k' c' H => Hopen k' c' (or_intror H))).
    destruct (docId c) as [d0|] eqn:Hd; simpl; [|exact IH'].
    destruct (String.eqb_spec d0 d) as [->|Hne]; simpl; [|exact IH'].
    rewrite (Hopen k c (or_introl eq_refl) Hd). simpl. f_equal. exact IH'.
Qed.

Lemma broadcast_reaches_at_most_the_client_count_witness :
  let cm := Scenario.editing (DocumentManager.mkState (str "abcdefgh") 0 [] 0 0) None in
  getClientCount cm "d1" = 2%nat /\
  length (broadcastToDocument cm "d1" (USER_JOINED "carol") None) = getClientCount cm "d1".
Proof.
  intros cm. split; [reflexivity|].
  apply (proj2 (broadcast_reaches_at_most_the_client_count cm "d1" (USER_JOINED "carol") None)).
  intros k c [[= <- <-]|[[= <- <-]|[]]] _; reflexivity.
Defined.

End Counting.

(** ** Editor and server together *)

Section EndToEnd.

Import ConnectionManager.

Lemma filter_none {A} (f : A -> bool) (l : list A) :
  (forall x, In x l -> f x = true) -> List.filter f l = l.
Proof.
  induction l as [|x l IH]; simpl; intros H; [reflexivity|].
  rewrite (H x (or_introl eq_refl)). f_equal. apply IH. auto.
Qed.

(** X22. A peer in sync stays in sync.  When the server handles an
    [APPLY_OP] for a document with content [content st], an editor of another
    session that shows that content, and handles the frame it is sent, shows
    the content the server then has. *)
Theorem peer_stays_in_sync cm clientId op now sender d st k m es :
  get (clients cm) clientId = Some sender -> joined sender = Some d ->
  DocumentManager.documents (documentManager cm) !! d = Some st ->
  EditorStore.content es = DocumentManager.content st ->
  k <> clientId ->
  In (k, m) (snd (handleMessage cm clientId (APPLY_OP op) now)) ->
  exists st',
    DocumentManager.documents
      (documentManager (fst (handleMessage cm clientId (APPLY_OP op) now))) !! d
    = Some st' /\
    EditorStore.content (UseWebSocket.handleMessage m es) = DocumentManager.content st'.
Proof.
  intros Hg Hj Hd Hes Hk.
  rewrite (handleMessage_APPLY_OP _ _ _ _ _ _ Hg Hj).
  destruct (OTEngine.validate (DocumentManager.content st) op) eqn:Hv.
  - rewrite (applyOperation_valid _ _ _ _ _ Hd Hv).
    assert (Hcast : forall cm' ex,
              In (k, m) (sendToClient cm' clientId ex
                         ++ broadcastToDocument cm' d
                              (BROADCAST_OP (DocumentManager.transformPending st op))
                              (Some clientId)) ->
              EditorStore.content (UseWebSocket.handleMessage m es)
              = OTEngine.apply (DocumentManager.content st)
                  (DocumentManager.transformPending st op)).
    { intros cm' ex H. apply in_app_iff in H as [H|H].
      - apply sendToClient_In in H as [H _]. contradiction.
      - apply broadcastToDocument_In in H as [-> _]. simpl.
        unfold UseWebSocket.applyRemoteOp. simpl.
        rewrite remoteContent_apply, Hes. reflexivity. }
    destruct ((DocumentManager.SAVE_INTERVAL <=? now - DocumentManager.lastSaveTime st)
              || (DocumentManager.SAVE_OP_THRESHOLD
                  <=? DocumentManager.opsSinceLastSave st + 1)).
    + destruct (DocumentModel.outage (DocumentManager.model (documentManager cm))).
      * cbn [snd]. intros H. apply sendToClient_In in H as [H _]. contradiction.
      * cbn [fst snd documentManager DocumentManager.documents]. intros H.
        rewrite lookup_insert_eq. eexists. split; [reflexivity|].
        cbn [DocumentManager.content]. eapply Hcast, H.
    + cbn [fst snd documentManager DocumentManager.documents]. intros H.
      rewrite lookup_insert_eq. eexists. split; [reflexivity|].
      cbn [DocumentManager.content]. eapply Hcast, H.
  - rewrite (applyOperation_invalid _ _ _ _ _ Hd Hv). cbn [snd].
    intros H. apply sendToClient_In in H as [H _]. contradiction.
Qed.

Lemma peer_stays_in_sync_witness :
  let st := DocumentManager.mkState (str "teAst") 1
              [Scenario.insert "op1" "alice" 0 2 "A"] 0 1 in
  let cm := Scenario.editing st None in
  let op := Scenario.insert "op2" "bob" 0 2 "B" in
  let es := EditorStore.syncState (str "teAst") 1 ∅ EditorStore.initialState in
  let m := BROADCAST_OP (Scenario.insert "op2" "bob" 0 3 "B") in
  EditorStore.content (UseWebSocket.handleMessage m es) = str "teABst" /\
  exists st',
    DocumentManager.documents
      (documentManager (fst (handleMessage cm "c2" (APPLY_OP op) 0))) !! "d1"
    = Some st' /\
    EditorStore.content (UseWebSocket.handleMessage m es) = DocumentManager.content st'.
Proof.
  intros st cm op es m. split; [vm_compute; reflexivity|].
  apply (peer_stays_in_sync cm "c2" op 0 (mkClient OPEN "bob" (Some "d1")) "d1" st "c1" m es
           eq_refl eq_refl eq_refl eq_refl ltac:(discriminate)).
  vm_compute. right. left. reflexivity.
Defined.

(** X23. An edit with nothing concurrent.  An editor that shows the
    server's content submits a valid operation whose base version is not
    behind the server's, over an open socket and a reachable store.  The
    optimistic update already shows the content the server ends with; the
    only frame the editor is sent is the [ACK_OP], and handling it leaves the
    content in place, sets [serverVersion] to the server's new version, and
    takes the operation off the pending queue. *)
Theorem unconflicted_edit_round_trip cm clientId op now sender d st es m :
  get (clients cm) clientId = Some sender -> joined sender = Some d ->
  ws sender = OPEN ->
  DocumentManager.documents (documentManager cm) !! d = Some st ->
  DocumentModel.outage (DocumentManager.model (documentManager cm)) = None ->
  OTEngine.validate (DocumentManager.content st) op = true ->
  DocumentManager.version st <= Op.baseVersion op ->
  EditorStore.content es = DocumentManager.content st ->
  (forall p, In p (EditorStore.pendingOps es) -> Op.opId p <> Op.opId op) ->
  let es1 := fst (EditorPage.handleOperation op es) in
  let r := handleMessage cm clientId (snd (EditorPage.handleOperation op es)) now in
  In (clientId, ACK_OP (Op.opId op) (DocumentManager.version st + 1)) (snd r) /\
  (In (clientId, m) (snd r) ->
   exists st',
     DocumentManager.documents (documentManager (fst r)) !! d = Some st' /\
     EditorStore.content es1 = DocumentManager.content st' /\
     EditorStore.content (UseWebSocket.handleMessage m es1) = DocumentManager.content st' /\
     EditorStore.serverVersion (UseWebSocket.handleMessage m es1)
     = DocumentManager.version st' /\
     EditorStore.pendingOps (UseWebSocket.handleMessage m es1) = EditorStore.pendingOps es).
Proof.
  intros Hg Hj Hw Hd Ho Hv Hb Hes Hfresh es1 r. subst es1 r.
  cbn [snd EditorPage.handleOperation].
  rewrite (handleMessage_APPLY_OP _ _ _ _ _ _ Hg Hj).
  rewrite (applyOperation_valid _ _ _ _ _ Hd Hv), Ho.
  rewrite (transformPending_current st op Hb).
  assert (Hack : forall cm' m0,
            clients cm' = clients cm ->
            In (clientId, m0)
              (sendToClient cm' clientId (ACK_OP (Op.opId op) (DocumentManager.version st + 1))
               ++ broadcastToDocument cm' d (BROADCAST_OP op) (Some clientId)) ->
            m0 = ACK_OP (Op.opId op) (DocumentManager.version st + 1)).
  { intros cm' m0 _ H. apply in_app_iff in H as [H|H].
    - apply sendToClient_In in H as [_ H]. exact H.
    - apply broadcastToDocument_In in H as [_ (c & _ & _ & He & _)]. congruence. }
  assert (Hsent : forall cm',
            clients cm' = clients cm ->
            In (clientId, ACK_OP (Op.opId op) (DocumentManager.version st + 1))
              (sendToClient cm' clientId (ACK_OP (Op.opId op) (DocumentManager.version st + 1))
               ++ broadcastToDocument cm' d (BROADCAST_OP op) (Some clientId))).
  { intros cm' Hc. apply in_or_app. left.
    rewrite (sendToClient_open _ _ _ sender); [left; reflexivity| |exact Hw].
    rewrite Hc. exact Hg. }
  assert (Hed : forall m0,
            m0 = ACK_OP (Op.opId op) (DocumentManager.version st + 1) ->
            EditorStore.content (fst (EditorPage.handleOperation op es))
            = OTEngine.apply (DocumentManager.content st) op /\
            EditorStore.content
              (UseWebSocket.handleMessage m0 (fst (EditorPage.handleOperation op es)))
            = OTEngine.apply (DocumentManager.content st) op /\
            EditorStore.serverVersion
              (UseWebSocket.handleMessage m0 (fst (EditorPage.handleOperation op es)))
            = DocumentManager.version st + 1 /\
            EditorStore.pendingOps
              (UseWebSocket.handleMessage m0 (fst (EditorPage.handleOperation op es)))
            = EditorStore.pendingOps es).
  { intros m0 ->. rewrite handleOperation_content, Hes.
    split; [reflexivity|]. cbn [UseWebSocket.handleMessage].
    unfold EditorStore.removePendingOp, EditorStore.setServerVersion,
      EditorStore.setPendingOps.
    cbn [EditorStore.content EditorStore.serverVersion EditorStore.pendingOps].
    split; [rewrite handleOperation_content, Hes; reflexivity|].
    split; [reflexivity|].
    unfold EditorPage.handleOperation, EditorStore.addPendingOp, EditorStore.setPendingOps,
      EditorStore.setContent.
    cbn [fst EditorStore.pendingOps].
    rewrite List.filter_app. simpl. rewrite String.eqb_refl. simpl.
    rewrite app_nil_r. apply filter_none.
    intros p Hp. apply negb_true_iff, String.eqb_neq, Hfresh, Hp. }
  destruct ((DocumentManager.SAVE_INTERVAL <=? now - DocumentManager.lastSaveTime st)
            || (DocumentManager.SAVE_OP_THRESHOLD
                <=? DocumentManager.opsSinceLastSave st + 1));
    cbn [fst snd documentManager DocumentManager.documents].
  - split; [apply Hsent; reflexivity|].
    intros H. apply Hack in H; [|reflexivity].
    rewrite lookup_insert_eq. eexists. split; [reflexivity|].
    cbn [DocumentManager.content DocumentManager.version].
    destruct (Hed m H) as (H1 & H2 & H3 & H4). auto.
  - split; [apply Hsent; reflexivity|].
    intros H. apply Hack in H; [|reflexivity].
    rewrite lookup_insert_eq. eexists. split; [reflexivity|].
    cbn [DocumentManager.content DocumentManager.version].
    destruct (Hed m H) as (H1 & H2 & H3 & H4). auto.
Qed.

Lemma unconflicted_edit_round_trip_witness :
  let st := DocumentManager.mkState (str "abcdefgh") 0 [] 0 0 in
  let cm := Scenario.editing st None in
  let op := Scenario.insert "op1" "alice" 0 8 "!" in
  let es := EditorStore.syncState (str "abcdefgh") 0 ∅ EditorStore.initialState in
  EditorStore.content (fst (EditorPage.handleOperation op es)) = str "abcdefgh!" /\
  In ("c1", ACK_OP "op1" 1)
    (snd (handleMessage cm "c1" (snd (EditorPage.handleOperation op es)) 0)).
Proof.
  intros st cm op es. split; [vm_compute; reflexivity|].
  apply (proj1 (unconflicted_edit_round_trip cm "c1" op 0
                  (mkClient OPEN "alice" (Some "d1")) "d1" st es (ERROR "")
                  eq_refl eq_refl eq_refl eq_refl eq_refl eq_refl
                  ltac:(vm_compute; congruence) eq_refl ltac:(intros p []))).
Defined.

(** X24. Joining brings the editor up to date.  On a successful join the
    only frame sent to the joining session is the [SYNC_STATE]; an editor that
    handles it shows the content of the document, has both its versions at
    the document's version, the cursors of the reply, and an empty pending
    queue, whatever it held before. *)
Theorem join_syncs_editor cm clientId d now client content version dm m es :
  get (clients cm) clientId = Some client ->
  DocumentManager.getDocument d now (documentManager cm) = (Ok (content, version), dm) ->
  let r := handleMessage cm clientId (JOIN_DOCUMENT d) now in
  In (clientId, m) (snd r) ->
  let es' := UseWebSocket.handleMessage m es in
  EditorStore.content es' = content /\
  EditorStore.serverVersion es' = version /\
  EditorStore.localVersion es' = version /\
  EditorStore.pendingOps es' = [] /\
  EditorStore.cursors es' = PresenceManager.getCursors (presenceManager (fst r)) d.
Proof.
  intros Hg Hdoc r. subst r.
  rewrite (handleMessage_JOIN_DOCUMENT _ _ _ _ _ Hg), Hdoc. cbv zeta.
  cbn [fst snd presenceManager]. rewrite !in_app_iff. intros [H|[H|H]].
  - destruct (joined client); [|destruct H].
    apply broadcastToDocument_In in H as [_ (c & _ & _ & He & _)]. congruence.
  - apply sendToClient_In in H as [_ ->]. cbn. auto.
  - apply broadcastToDocument_In in H as [_ (c & _ & _ & He & _)]. congruence.
Qed.

Lemma join_syncs_editor_witness :
  let cm := Scenario.connected in
  let m := SYNC_STATE (str "abcdefgh") 0 {["alice" := mkCursor "alice" 0]} in
  let es := EditorStore.setContent (str "stale") EditorStore.initialState in
  In ("c1", m) (snd (handleMessage cm "c1" (JOIN_DOCUMENT "d1") 0)) /\
  EditorStore.content (UseWebSocket.handleMessage m es) = str "abcdefgh".
Proof.
  intros cm m es.
  assert (H : In ("c1", m) (snd (handleMessage cm "c1" (JOIN_DOCUMENT "d1") 0))).
  { vm_compute. left. reflexivity. }
  split; [exact H|].
  exact (proj1 (join_syncs_editor cm "c1" "d1" 0 (mkClient OPEN "alice" None)
                  (str "abcdefgh") 0
                  (snd (DocumentManager.getDocument "d1" 0 (documentManager cm)))
                  m es eq_refl eq_refl H)).
Defined.

(** With an operation in flight the editor can part from the server: it
    applies the frames of others as they come, without transforming them
    against its own pending operation.  On "test", bob inserts "B" at 1
    while alice's insert of "A" at 3 reaches the server first. *)
Example optimistic_editor_can_diverge :
  let st := DocumentManager.mkState (str "test") 0 [] 0 0 in
  let a := Scenario.insert "op1" "alice" 0 3 "A" in
  let b := Scenario.insert "op2" "bob" 0 1 "B" in
  let bob0 := EditorStore.syncState (str "test") 0 ∅ EditorStore.initialState in
  let bob1 := fst (EditorPage.handleOperation b bob0) in
  let r1 := handleMessage (Scenario.editing st None) "c1" (APPLY_OP a) 0 in
  let bob2 := UseWebSocket.handleMessage (BROADCAST_OP a) bob1 in
  let r2 := handleMessage (fst r1) "c2" (APPLY_OP b) 0 in
  let bob3 := UseWebSocket.handleMessage (ACK_OP "op2" 2) bob2 in
  snd r1 = [("c1", ACK_OP "op1" 1); ("c2", BROADCAST_OP a)] /\
  snd r2 = [("c2", ACK_OP "op2" 2); ("c1", BROADCAST_OP b)] /\
  DocumentManager.content <$> Scenario.state_after r2 = Some (str "tBesAt") /\
  EditorStore.content bob3 = str "tBeAst".
Proof. repeat split; vm_compute; reflexivity. Qed.

End EndToEnd.
